(** * Goodix fingerprint-sensor protocol engine: codecs and command exchanges

    A shallow embedding of [goodix/core.py]: the command-identifier codec,
    the message-pack and message-protocol framing layers, the ack record,
    the image and MCU-state sub-codecs, and the sensor-register and PSK
    command exchanges over a queue-based model of the USB transport.

    Python [int]s are [Z], [bytes] objects are lists of [Byte.byte],
    raised exceptions are the [Raise] branch of [result]. *)

From Stdlib Require Import ZArith Strings.Byte String Lia.
From stdpp Require Import base tactics option list list_numbers.

Local Open Scope Z_scope.

(** ** Python values and exceptions *)

Abbreviation bytes := (list byte).

Inductive exn : Type :=
| ValueError (msg : string)
| SystemError (msg : string)
| IndexError
| StructError
| TypeError
| USBTimeoutError (code : Z).

Inductive result (A : Type) : Type :=
| Ok (a : A)
| Raise (e : exn).

Arguments Ok {A} a.
Arguments Raise {A} e.

#[global] Instance result_ret : MRet result := fun A a => Ok a.
#[global] Instance result_bind : MBind result := fun A B f r =>
  match r with
  | Ok a => f a
  | Raise e => Raise e
  end.

(** The value of a byte as a Python [int], and the byte of an [int] that is
    already known to lie in [0, 255]. *)
Definition byte_val (b : byte) : Z := Z.of_N (Byte.to_N b).

Definition byte_of (z : Z) : byte :=
  match Byte.of_N (Z.to_N z) with
  | Some b => b
  | None => x00
  end.

(** [len(l)]. *)
Definition len {A : Type} (l : list A) : Z := Z.of_nat (length l).

(** [sum(payload)] over a [bytes] object. *)
Definition sum (payload : bytes) : Z :=
  foldr (fun b acc => byte_val b + acc) 0 payload.

(** [payload[i]] for a non-negative [i]: the byte as an [int], or
    [IndexError] past the end.  Every index in the modelled code is a
    constant or a constant plus an unsigned field, so the negative
    (from-the-end) case of Python indexing never arises. *)
Definition index (payload : bytes) (i : Z) : result Z :=
  match payload !! Z.to_nat i with
  | Some b => Ok (byte_val b)
  | None => Raise IndexError
  end.

(** [l[lo:hi]] for non-negative bounds: slicing never raises and clips at
    the end of the sequence. *)
Definition slice {A : Type} (l : list A) (lo hi : Z) : list A :=
  take (Z.to_nat hi - Z.to_nat lo)%nat (drop (Z.to_nat lo) l).

(** [range(start, stop, step)] for a positive [step]. *)
Definition range (start stop step : Z) : list Z :=
  (fun k => start + step * k) <$> seqZ 0 ((stop - start + step - 1) / step).

(** ** [struct.pack] and [struct.unpack], little-endian formats *)

(** [struct.unpack] returns a tuple; the formats used here have one item. *)
Record tuple1 : Type := Tuple1 { item0 : Z }.

Definition pack_B (v : Z) : result bytes :=
  if (0 <=? v) && (v <=? 255) then Ok [byte_of v] else Raise StructError.

Definition pack_H (v : Z) : result bytes :=
  if (0 <=? v) && (v <? 65536)
  then Ok [byte_of (v mod 256); byte_of (v / 256)]
  else Raise StructError.

Definition pack_I (v : Z) : result bytes :=
  if (0 <=? v) && (v <? 4294967296)
  then Ok [byte_of (v mod 256); byte_of (v / 256 mod 256);
           byte_of (v / 65536 mod 256); byte_of (v / 16777216)]
  else Raise StructError.

Definition unpack_H (b : bytes) : result tuple1 :=
  match b with
  | [b0; b1] => Ok (Tuple1 (byte_val b0 + 256 * byte_val b1))
  | _ => Raise StructError
  end.

(** The unsigned 32-bit integer with the given bytes, least significant
    first. *)
Definition u32_le (b0 b1 b2 b3 : byte) : Z :=
  byte_val b0 + 256 * byte_val b1
  + 65536 * byte_val b2 + 16777216 * byte_val b3.

Definition unpack_I (b : bytes) : result tuple1 :=
  match b with
  | [b0; b1; b2; b3] => Ok (Tuple1 (u32_le b0 b1 b2 b3))
  | _ => Raise StructError
  end.

(** ** Constants *)

Definition FLAGS_MESSAGE_PROTOCOL : Z := 0xa0.
Definition FLAGS_TRANSPORT_LAYER_SECURITY : Z := 0xb0.

Definition COMMAND_WRITE_SENSOR_REGISTER : Z := 0x80.
Definition COMMAND_READ_SENSOR_REGISTER : Z := 0x82.
Definition COMMAND_ACK : Z := 0xb0.
Definition COMMAND_PRESET_PSK_WRITE_R : Z := 0xe0.
Definition COMMAND_PRESET_PSK_READ_R : Z := 0xe4.

(** ** Command identifiers *)

Definition encode_command (cmd0 cmd1 : Z) : Z :=
  Z.lor (Z.shiftl cmd0 4) (Z.shiftl cmd1 1).

Definition decode_command (command : Z) : result (Z * Z) :=
  if negb (Z.land command 0x1 =? 0)
  then Raise (ValueError "Invalid command")
  else Ok (Z.land (Z.shiftr command 4) 0xf, Z.land (Z.shiftr command 1) 0x7).

(** ** Message pack: the outer transport frame *)

Definition encode_message_pack
    (data : bytes) (flags : Z) (length : option Z) : result bytes :=
  let length := match length with None => len data | Some n => n end in
  let payload : bytes := [] in
  f ← pack_B flags;
  let payload := payload ++ f in
  l ← pack_H length;
  let payload := payload ++ l in
  c ← pack_B (Z.land (sum payload) 0xff);
  let payload := payload ++ c in
  let payload := payload ++ data in
  Ok payload.

Definition decode_message_pack (payload : bytes) : result (bytes * Z * Z) :=
  t ← unpack_H (slice payload 1 3);
  let length := item0 t in
  p3 ← index payload 3;
  if negb (Z.land (sum (slice payload 0 3)) 0xff =? p3)
  then Raise (ValueError "Invalid payload")
  else
    p0 ← index payload 0;
    Ok (slice payload 4 (4 + length), p0, length).

Definition check_message_pack (payload : bytes) (flags : Z) : result bytes :=
  payload ← decode_message_pack payload;
  let '(data, flags', length) := payload in
  if negb (flags' =? flags) || (len data <? length)
  then Raise (ValueError "Invalid message pack")
  else Ok data.

(** ** Message protocol: the inner command frame *)

Definition encode_message_protocol
    (data : bytes) (command : Z) (length : option Z) (checksum : bool)
    : result bytes :=
  let length := match length with None => len data | Some n => n end in
  let payload : bytes := [] in
  c ← pack_B command;
  let payload := payload ++ c in
  l ← pack_H (length + 1);
  let payload := payload ++ l in
  let payload := payload ++ data in
  t ← pack_B (if checksum then Z.land (0xaa - sum payload) 0xff else 0x88);
  let payload := payload ++ t in
  Ok payload.

Definition decode_message_protocol
    (payload : bytes) (checksum : bool) : result (bytes * Z * Z) :=
  t ← unpack_H (slice payload 1 3);
  let length := item0 t in
  let returned :=
    p0 ← index payload 0;
    Ok (slice payload 3 (2 + length), p0, length - 1) in
  if checksum
  then
    trailer ← index payload (2 + length);
    if negb (trailer =? Z.land (0xaa - sum (slice payload 0 (2 + length))) 0xff)
    then Raise (ValueError "Invalid payload")
    else returned
  else
    trailer ← index payload (2 + length);
    if negb (trailer =? 0x88)
    then Raise (ValueError "Invalid payload")
    else returned.

Definition check_message_protocol
    (payload : bytes) (command : Z) (checksum : bool) : result bytes :=
  payload ← decode_message_protocol payload checksum;
  let '(data, command', length) := payload in
  if negb (command' =? command) || (len data <? length)
  then Raise (ValueError "Invalid message protocol")
  else Ok data.

(** ** Ack record *)

Definition decode_ack (payload : bytes) : result (Z * bool) :=
  p1 ← index payload 1;
  if Z.land p1 0x1 =? 0
  then Raise (ValueError "Invalid payload")
  else
    p0 ← index payload 0;
    Ok (p0, Z.land p1 0x2 =? 0x2).

Definition check_ack (payload : bytes) (command : Z) : result bool :=
  payload ← decode_ack payload;
  if negb (payload.1 =? command)
  then Raise (ValueError "Invalid ack")
  else Ok payload.2.

(** ** Binary sub-codecs *)

(** A [for] loop over a list whose body may raise, threading the loop's
    accumulator. *)
Fixpoint for_each {A S : Type}
    (l : list A) (body : S -> A -> result S) (s : S) : result S :=
  match l with
  | [] => Ok s
  | x :: l' => s' ← body s x; for_each l' body s'
  end.

Definition decode_image (payload : bytes) : result (list Z) :=
  for_each (range 0 (len payload) 6)
    (fun image i =>
       let chunk := slice payload i (i + 6) in
       c0 ← index chunk 0;
       c1 ← index chunk 1;
       let image := image ++ [Z.shiftl (Z.land c0 0xf) 8 + c1] in
       c3 ← index chunk 3;
       let image := image ++ [Z.shiftl c3 4 + Z.shiftr c0 4] in
       c5 ← index chunk 5;
       c2 ← index chunk 2;
       let image := image ++ [Z.shiftl (Z.land c5 0xf) 8 + c2] in
       c4 ← index chunk 4;
       let image := image ++ [Z.shiftl c4 4 + Z.shiftr c5 4] in
       Ok image)
    [].

(** The seventh component is what [decode("<H", ...)] returns, a tuple: the
    source does not take its item 0 here. *)
Definition decode_mcu_state (payload : bytes)
    : result (Z * bool * bool * bool * Z * Z * tuple1 * Z * Z) :=
  p0 ← index payload 0;
  p1 ← index payload 1;
  p2 ← index payload 2;
  p9 ← index payload 9;
  t ← unpack_H (slice payload 10 11);
  p12 ← index payload 12;
  p13 ← index payload 13;
  Ok (p0, Z.land p1 0x1 =? 0x1, Z.land p1 0x2 =? 0x2, Z.land p1 0x4 =? 0x4,
      Z.shiftr p2 4, p9, t, p12, p13).

(** ** The device: command exchanges over the USB transport *)

(** The transport is external.  It is modelled by the chunks handed to the
    bulk-out endpoint so far, oldest first, and by the buffers that the
    successive reads of the bulk-in endpoint will return. *)
Record Device : Type := mkDevice {
  written : list bytes;
  incoming : list bytes
}.

Definition M (A : Type) : Type := Device -> result A * Device.

#[global] Instance M_ret : MRet M := fun A a dev => (Ok a, dev).
#[global] Instance M_bind : MBind M := fun A B f m dev =>
  match m dev with
  | (Ok a, dev') => f a dev'
  | (Raise e, dev') => (Raise e, dev')
  end.

(** A pure computation run inside an exchange. *)
Definition lift {A : Type} (r : result A) : M A := fun dev => (r, dev).

Fixpoint for_each_M {A : Type} (l : list A) (body : A -> M unit) : M unit :=
  match l with
  | [] => mret ()
  | x :: l' => body x;; for_each_M l' body
  end.

(** [self.device.write(self.endpoint_out, chunk, timeout)]. *)
Definition usb_write (chunk : bytes) : M unit := fun dev =>
  (Ok (), mkDevice (written dev ++ [chunk]) (incoming dev)).

(** [self.device.read(self.endpoint_in, size, timeout).tobytes()]: the next
    buffer of the transport, or a timeout when nothing is pending. *)
Definition usb_read (size : Z) : M bytes := fun dev =>
  match incoming dev with
  | buffer :: rest => (Ok buffer, mkDevice (written dev) rest)
  | [] => (Raise (USBTimeoutError (-7)), dev)
  end.

Definition Device_write (payload : bytes) : M unit :=
  let length := len payload in
  let payload :=
    if negb (length mod 0x40 =? 0)
    then payload ++ replicate (Z.to_nat (0x40 - length mod 0x40)) x00
    else payload in
  for_each_M (range 0 length 0x40)
    (fun i => usb_write (slice payload i (i + 0x40))).

Definition Device_read (size : Z) : M bytes := usb_read size.

(** [address: Union[int, List[int]]] and [value: Union[bytes, List[bytes]]],
    discriminated in the source by [isinstance]. *)
Inductive address_arg : Type :=
| AddressInt (a : Z)
| AddressList (l : list Z).

Inductive value_arg : Type :=
| ValueBytes (b : bytes)
| ValueList (l : list bytes).

(** [l[i]] on a Python list. *)
Definition list_index {A : Type} (l : list A) (i : Z) : result A :=
  match l !! Z.to_nat i with
  | Some x => Ok x
  | None => Raise IndexError
  end.

(** The items a [for] statement draws from an [int]: there are none, since
    [iter] raises [TypeError] ('int' object is not iterable) before the
    body runs. *)
Definition iter_int (n : Z) : result (list Z) := Raise TypeError.

(** The read-ack step shared by every exchange:
    [check_ack(check_message_protocol(check_message_pack(self.read()),
    COMMAND_ACK), command)]. *)
Definition read_ack (command : Z) : M bool :=
  message ← Device_read 0x2000;
  lift (pack ← check_message_pack message FLAGS_MESSAGE_PROTOCOL;
        protocol ← check_message_protocol pack COMMAND_ACK true;
        check_ack protocol command).

Definition write_sensor_register
    (address : address_arg) (value : value_arg) : M unit :=
  message ← lift
    match address with
    | AddressInt address =>
        match value with
        | ValueList _ => Raise (ValueError "Invalid value")
        | ValueBytes value =>
            a ← pack_H address;
            Ok ([x00] ++ a ++ value)
        end
    | AddressList address =>
        match value with
        | ValueBytes _ => Raise (ValueError "Invalid value")
        | ValueList value =>
            let length := len address in
            if negb (len value =? length)
            then Raise (ValueError "Invalid value")
            else
              let message : bytes := [] in
              let message := message ++ [x01] in
              items ← iter_int length;
              for_each items
                (fun message i =>
                   v ← list_index value i;
                   if negb (len v =? 2)
                   then Raise (ValueError "Invalid value")
                   else
                     a ← list_index address i;
                     a ← pack_H a;
                     let message := message ++ a in
                     v ← list_index value i;
                     Ok (message ++ v))
                message
        end
    end;
  protocol ← lift (encode_message_protocol
                     message COMMAND_WRITE_SENSOR_REGISTER None true);
  pack ← lift (encode_message_pack protocol FLAGS_MESSAGE_PROTOCOL None);
  Device_write pack;;
  read_ack COMMAND_WRITE_SENSOR_REGISTER;;
  mret ().

Definition read_sensor_register
    (address : address_arg) (length : Z) : M value_arg :=
  message ← lift
    match address with
    | AddressInt address =>
        a ← pack_H address;
        l ← pack_B length;
        Ok ([x00] ++ a ++ l)
    | AddressList address =>
        if negb (length =? 2)
        then Raise (ValueError "Invalid length")
        else
          let message : bytes := [] in
          let message := message ++ [x01] in
          message ← for_each address
            (fun message value => a ← pack_H value; Ok (message ++ a))
            message;
          l ← pack_B length;
          Ok (message ++ l)
    end;
  protocol ← lift (encode_message_protocol
                     message COMMAND_READ_SENSOR_REGISTER None true);
  pack ← lift (encode_message_pack protocol FLAGS_MESSAGE_PROTOCOL None);
  Device_write pack;;
  read_ack COMMAND_READ_SENSOR_REGISTER;;
  message ← Device_read 0x2000;
  message ← lift (pack ← check_message_pack message FLAGS_MESSAGE_PROTOCOL;
                  check_message_protocol pack COMMAND_READ_SENSOR_REGISTER true);
  match address with
  | AddressInt _ =>
      if negb (len message =? length)
      then lift (Raise (SystemError "Invalid response length"))
      else mret (ValueBytes message)
  | AddressList address =>
      let length := len message - 1 in
      if negb (length =? len address * 2)
      then lift (Raise (SystemError "Invalid response length"))
      else
        value ← lift (for_each (range 0 length 2)
                        (fun value i => Ok (value ++ [slice message i (i + 2)]))
                        []);
        mret (ValueList value)
  end.

Definition preset_psk_write_r
    (address length : Z) (data : bytes) : M unit :=
  a ← lift (pack_I address);
  l ← lift (pack_I length);
  protocol ← lift (encode_message_protocol
                     (a ++ l ++ data) COMMAND_PRESET_PSK_WRITE_R None true);
  pack ← lift (encode_message_pack protocol FLAGS_MESSAGE_PROTOCOL None);
  Device_write pack;;
  read_ack COMMAND_PRESET_PSK_WRITE_R;;
  message ← Device_read 0x2000;
  message ← lift (pack ← check_message_pack message FLAGS_MESSAGE_PROTOCOL;
                  check_message_protocol pack COMMAND_PRESET_PSK_WRITE_R true);
  if 2 <? len message
  then lift (Raise (SystemError "Invalid response length"))
  else
    m0 ← lift (index message 0);
    if negb (m0 =? 0x00)
    then lift (Raise (SystemError "Invalid response"))
    else mret ().

Definition preset_psk_read_r (address length : Z) : M bytes :=
  a ← lift (pack_I address);
  l ← lift (pack_I length);
  protocol ← lift (encode_message_protocol
                     (a ++ l) COMMAND_PRESET_PSK_READ_R None true);
  pack ← lift (encode_message_pack protocol FLAGS_MESSAGE_PROTOCOL None);
  Device_write pack;;
  read_ack COMMAND_PRESET_PSK_READ_R;;
  message ← Device_read 0x2000;
  message ← lift (pack ← check_message_pack message FLAGS_MESSAGE_PROTOCOL;
                  check_message_protocol pack COMMAND_PRESET_PSK_READ_R true);
  let length := len message in
  if length <? 9
  then lift (Raise (SystemError "Invalid response length"))
  else
    t ← lift (unpack_I (slice message 5 9));
    let psk_length := item0 t in
    if length - 9 <? psk_length
    then lift (Raise (SystemError "Invalid response length"))
    else
      m0 ← lift (index message 0);
      if negb (m0 =? 0x00)
      then lift (Raise (SystemError "Invalid response"))
      else
        t ← lift (unpack_I (slice message 1 5));
        if negb (item0 t =? address)
        then lift (Raise (SystemError "Invalid response"))
        else mret (slice message 9 (9 + psk_length)).

(** ** The remaining commands of the device *)

Definition COMMAND_NOP : Z := 0x00.
Definition COMMAND_MCU_GET_IMAGE : Z := 0x20.
Definition COMMAND_MCU_SWITCH_TO_FDT_DOWN : Z := 0x32.
Definition COMMAND_MCU_SWITCH_TO_FDT_UP : Z := 0x34.
Definition COMMAND_MCU_SWITCH_TO_FDT_MODE : Z := 0x36.
Definition COMMAND_NAV_0 : Z := 0x50.
Definition COMMAND_MCU_SWITCH_TO_IDLE_MODE : Z := 0x70.
Definition COMMAND_UPLOAD_CONFIG_MCU : Z := 0x90.
Definition COMMAND_SET_POWERDOWN_SCAN_FREQUENCY : Z := 0x94.
Definition COMMAND_ENABLE_CHIP : Z := 0x96.
Definition COMMAND_RESET : Z := 0xa2.
Definition COMMAND_MCU_ERASE_APP : Z := 0xa4.
Definition COMMAND_READ_OTP : Z := 0xa6.
Definition COMMAND_QUERY_MCU_STATE : Z := 0xae.
Definition COMMAND_REQUEST_TLS_CONNECTION : Z := 0xd0.
Definition COMMAND_TLS_SUCCESSFULLY_ESTABLISHED : Z := 0xd4.
Definition COMMAND_WRITE_FIRMWARE : Z := 0xf0.
Definition COMMAND_READ_FIRMWARE : Z := 0xf2.
Definition COMMAND_CHECK_FIRMWARE : Z := 0xf4.

(** [try: body / except USBTimeoutError as error: handler]: the handler
    receives [error.backend_error_code]; any other exception propagates. *)
Definition except_USBTimeoutError {A : Type}
    (body : M A) (handler : Z -> M A) : M A := fun dev =>
  match body dev with
  | (Raise (USBTimeoutError code), dev') => handler code dev'
  | outcome => outcome
  end.

(** [while True: self.read(timeout=0.1)]: the loop is left only by an
    exception, which is returned with the device it leaves behind; [None]
    is the model running out of [fuel]. *)
Fixpoint read_forever (fuel : nat) (dev : Device) : option (exn * Device) :=
  match fuel with
  | O => None
  | S fuel' =>
      match Device_read 0x2000 dev with
      | (Ok _, dev') => read_forever fuel' dev'
      | (Raise e, dev') => Some (e, dev')
      end
  end.

Definition empty_buffer (fuel : nat) (dev : Device)
    : option (result unit * Device) :=
  match read_forever fuel dev with
  | None => None
  | Some (USBTimeoutError code, dev') =>
      if code =? -7
      then Some (Ok (), dev')
      else Some (Raise (USBTimeoutError code), dev')
  | Some (e, dev') => Some (Raise e, dev')
  end.

(** In [nop] the [except] branch returns from the function: the [try]
    statement yields either the message read or that early return. *)
Definition nop : M unit :=
  protocol ← lift (encode_message_protocol
                     [x00; x00; x00; x00] COMMAND_NOP None false);
  pack ← lift (encode_message_pack protocol FLAGS_MESSAGE_PROTOCOL None);
  Device_write pack;;
  message ← except_USBTimeoutError
    (message ← Device_read 0x2000; mret (Some message))
    (fun code =>
       if code =? -7
       then mret None
       else lift (Raise (USBTimeoutError code)));
  match message with
  | None => mret ()
  | Some message =>
      lift (pack ← check_message_pack message FLAGS_MESSAGE_PROTOCOL;
            protocol ← check_message_protocol pack COMMAND_ACK true;
            check_ack protocol COMMAND_NOP);;
      mret ()
  end.

Definition mcu_get_image : M bytes :=
  protocol ← lift (encode_message_protocol
                     [x01; x00] COMMAND_MCU_GET_IMAGE None true);
  pack ← lift (encode_message_pack protocol FLAGS_MESSAGE_PROTOCOL None);
  Device_write pack;;
  read_ack COMMAND_MCU_GET_IMAGE;;
  first ← Device_read 0x2000;
  second ← Device_read 0x1000;
  lift (check_message_pack (first ++ second) FLAGS_TRANSPORT_LAYER_SECURITY).

Definition mcu_switch_to_fdt_down (mode : bytes) : M bytes :=
  protocol ← lift (encode_message_protocol
                     mode COMMAND_MCU_SWITCH_TO_FDT_DOWN None true);
  pack ← lift (encode_message_pack protocol FLAGS_MESSAGE_PROTOCOL None);
  Device_write pack;;
  read_ack COMMAND_MCU_SWITCH_TO_FDT_DOWN;;
  message ← Device_read 0x2000;
  message ← lift (pack ← check_message_pack message FLAGS_MESSAGE_PROTOCOL;
                  check_message_protocol
                    pack COMMAND_MCU_SWITCH_TO_FDT_DOWN true);
  if negb (len message =? 16)
  then lift (Raise (SystemError "Invalid response length"))
  else mret message.

Definition mcu_switch_to_fdt_up (mode : bytes) : M bytes :=
  protocol ← lift (encode_message_protocol
                     mode COMMAND_MCU_SWITCH_TO_FDT_UP None true);
  pack ← lift (encode_message_pack protocol FLAGS_MESSAGE_PROTOCOL None);
  Device_write pack;;
  read_ack COMMAND_MCU_SWITCH_TO_FDT_UP;;
  message ← Device_read 0x2000;
  message ← lift (pack ← check_message_pack message FLAGS_MESSAGE_PROTOCOL;
                  check_message_protocol pack COMMAND_MCU_SWITCH_TO_FDT_UP true);
  if negb (len message =? 16)
  then lift (Raise (SystemError "Invalid response length"))
  else mret message.

Definition mcu_switch_to_fdt_mode (mode : bytes) : M bytes :=
  protocol ← lift (encode_message_protocol
                     mode COMMAND_MCU_SWITCH_TO_FDT_MODE None true);
  pack ← lift (encode_message_pack protocol FLAGS_MESSAGE_PROTOCOL None);
  Device_write pack;;
  read_ack COMMAND_MCU_SWITCH_TO_FDT_MODE;;
  message ← Device_read 0x2000;
  message ← lift (pack ← check_message_pack message FLAGS_MESSAGE_PROTOCOL;
                  check_message_protocol
                    pack COMMAND_MCU_SWITCH_TO_FDT_MODE true);
  if negb (len message =? 16)
  then lift (Raise (SystemError "Invalid response length"))
  else mret message.

Definition nav_0 : M bytes :=
  protocol ← lift (encode_message_protocol [x01; x00] COMMAND_NAV_0 None true);
  pack ← lift (encode_message_pack protocol FLAGS_MESSAGE_PROTOCOL None);
  Device_write pack;;
  read_ack COMMAND_NAV_0;;
  message ← Device_read 0x2000;
  lift (pack ← check_message_pack message FLAGS_MESSAGE_PROTOCOL;
        check_message_protocol pack COMMAND_NAV_0 false).

Definition mcu_switch_to_idle_mode (sleep_time : Z) : M unit :=
  s ← lift (pack_B sleep_time);
  protocol ← lift (encode_message_protocol
                     (s ++ [x00]) COMMAND_MCU_SWITCH_TO_IDLE_MODE None true);
  pack ← lift (encode_message_pack protocol FLAGS_MESSAGE_PROTOCOL None);
  Device_write pack;;
  read_ack COMMAND_MCU_SWITCH_TO_IDLE_MODE;;
  mret ().

Definition upload_config_mcu (config : bytes) : M unit :=
  protocol ← lift (encode_message_protocol
                     config COMMAND_UPLOAD_CONFIG_MCU None true);
  pack ← lift (encode_message_pack protocol FLAGS_MESSAGE_PROTOCOL None);
  Device_write pack;;
  read_ack COMMAND_UPLOAD_CONFIG_MCU;;
  message ← Device_read 0x2000;
  message ← lift (pack ← check_message_pack message FLAGS_MESSAGE_PROTOCOL;
                  check_message_protocol pack COMMAND_UPLOAD_CONFIG_MCU true);
  if negb (len message =? 2)
  then lift (Raise (SystemError "Invalid response length"))
  else
    m0 ← lift (index message 0);
    if negb (m0 =? 0x01)
    then lift (Raise (SystemError "Invalid response"))
    else mret ().

Definition set_powerdown_scan_frequency
    (powerdown_scan_frequency : Z) : M unit :=
  f ← lift (pack_H powerdown_scan_frequency);
  protocol ← lift (encode_message_protocol
                     f COMMAND_SET_POWERDOWN_SCAN_FREQUENCY None true);
  pack ← lift (encode_message_pack protocol FLAGS_MESSAGE_PROTOCOL None);
  Device_write pack;;
  read_ack COMMAND_SET_POWERDOWN_SCAN_FREQUENCY;;
  message ← Device_read 0x2000;
  message ← lift (pack ← check_message_pack message FLAGS_MESSAGE_PROTOCOL;
                  check_message_protocol
                    pack COMMAND_SET_POWERDOWN_SCAN_FREQUENCY true);
  if negb (len message =? 2)
  then lift (Raise (SystemError "Invalid response length"))
  else
    m0 ← lift (index message 0);
    if negb (m0 =? 0x01)
    then lift (Raise (SystemError "Invalid response"))
    else mret ().

Definition enable_chip (enable : bool) : M unit :=
  e ← lift (pack_B (if enable then 0x1 else 0x0));
  protocol ← lift (encode_message_protocol
                     (e ++ [x00]) COMMAND_ENABLE_CHIP None true);
  pack ← lift (encode_message_pack protocol FLAGS_MESSAGE_PROTOCOL None);
  Device_write pack;;
  read_ack COMMAND_ENABLE_CHIP;;
  mret ().

Definition reset
    (reset_sensor soft_reset_mcu : bool) (sleep_time : Z) : M (option Z) :=
  f ← lift (pack_B (Z.lor (if reset_sensor then 0x1 else 0x0)
                          (Z.shiftl (if soft_reset_mcu then 0x1 else 0x0) 1)));
  s ← lift (pack_B sleep_time);
  protocol ← lift (encode_message_protocol (f ++ s) COMMAND_RESET None true);
  pack ← lift (encode_message_pack protocol FLAGS_MESSAGE_PROTOCOL None);
  Device_write pack;;
  read_ack COMMAND_RESET;;
  if soft_reset_mcu
  then mret None
  else
    message ← Device_read 0x2000;
    message ← lift (pack ← check_message_pack message FLAGS_MESSAGE_PROTOCOL;
                    check_message_protocol pack COMMAND_RESET true);
    if negb (len message =? 3)
    then lift (Raise (SystemError "Invalid response length"))
    else
      m0 ← lift (index message 0);
      if negb (m0 =? 0x01)
      then lift (Raise (SystemError "Invalid response"))
      else
        t ← lift (unpack_H (slice message 1 3));
        mret (Some (item0 t)).

Definition mcu_erase_app (sleep_time : Z) : M unit :=
  s ← lift (pack_B sleep_time);
  protocol ← lift (encode_message_protocol
                     ([x00] ++ s) COMMAND_MCU_ERASE_APP None true);
  pack ← lift (encode_message_pack protocol FLAGS_MESSAGE_PROTOCOL None);
  Device_write pack;;
  read_ack COMMAND_MCU_ERASE_APP;;
  mret ().

Definition read_otp : M bytes :=
  protocol ← lift (encode_message_protocol [x00; x00] COMMAND_READ_OTP None true);
  pack ← lift (encode_message_pack protocol FLAGS_MESSAGE_PROTOCOL None);
  Device_write pack;;
  read_ack COMMAND_READ_OTP;;
  message ← Device_read 0x2000;
  lift (pack ← check_message_pack message FLAGS_MESSAGE_PROTOCOL;
        check_message_protocol pack COMMAND_READ_OTP true).

Definition query_mcu_state : M bytes :=
  protocol ← lift (encode_message_protocol
                     [x55] COMMAND_QUERY_MCU_STATE None true);
  pack ← lift (encode_message_pack protocol FLAGS_MESSAGE_PROTOCOL None);
  Device_write pack;;
  read_ack COMMAND_QUERY_MCU_STATE;;
  message ← Device_read 0x2000;
  message ← lift (pack ← check_message_pack message FLAGS_MESSAGE_PROTOCOL;
                  check_message_protocol pack COMMAND_QUERY_MCU_STATE true);
  if negb (len message =? 0x10)
  then lift (Raise (SystemError "Invalid response length"))
  else mret message.

Definition request_tls_connection : M bytes :=
  protocol ← lift (encode_message_protocol
                     [x00; x00] COMMAND_REQUEST_TLS_CONNECTION None true);
  pack ← lift (encode_message_pack protocol FLAGS_MESSAGE_PROTOCOL None);
  Device_write pack;;
  read_ack COMMAND_REQUEST_TLS_CONNECTION;;
  message ← Device_read 0x2000;
  lift (check_message_pack message FLAGS_TRANSPORT_LAYER_SECURITY).

Definition tls_successfully_established : M unit :=
  protocol ← lift (encode_message_protocol
                     [x00; x00] COMMAND_TLS_SUCCESSFULLY_ESTABLISHED None true);
  pack ← lift (encode_message_pack protocol FLAGS_MESSAGE_PROTOCOL None);
  Device_write pack;;
  read_ack COMMAND_TLS_SUCCESSFULLY_ESTABLISHED;;
  mret ().

Definition write_firmware (offset : Z) (data : bytes) : M unit :=
  o ← lift (pack_I offset);
  l ← lift (pack_I (len data));
  protocol ← lift (encode_message_protocol
                     (o ++ l ++ data) COMMAND_WRITE_FIRMWARE None true);
  pack ← lift (encode_message_pack protocol FLAGS_MESSAGE_PROTOCOL None);
  Device_write pack;;
  read_ack COMMAND_WRITE_FIRMWARE;;
  message ← Device_read 0x2000;
  message ← lift (pack ← check_message_pack message FLAGS_MESSAGE_PROTOCOL;
                  check_message_protocol pack COMMAND_WRITE_FIRMWARE true);
  if negb (len message =? 2)
  then lift (Raise (SystemError "Invalid response length"))
  else
    m0 ← lift (index message 0);
    if negb (m0 =? 0x01)
    then lift (Raise (SystemError "Invalid response"))
    else mret ().

Definition read_firmware (offset length : Z) : M bytes :=
  o ← lift (pack_I offset);
  l ← lift (pack_I length);
  protocol ← lift (encode_message_protocol
                     (o ++ l) COMMAND_READ_FIRMWARE None true);
  pack ← lift (encode_message_pack protocol FLAGS_MESSAGE_PROTOCOL None);
  Device_write pack;;
  read_ack COMMAND_READ_FIRMWARE;;
  message ← Device_read 0x2000;
  message ← lift (pack ← check_message_pack message FLAGS_MESSAGE_PROTOCOL;
                  check_message_protocol pack COMMAND_READ_FIRMWARE true);
  if negb (len message =? length)
  then lift (Raise (SystemError "Invalid response length"))
  else mret message.

Definition check_firmware
    (offset length checksum : Z) (data : option bytes) : M unit :=
  let data := match data with None => [] | Some data => data end in
  o ← lift (pack_I offset);
  l ← lift (pack_I length);
  c ← lift (pack_I checksum);
  protocol ← lift (encode_message_protocol
                     (o ++ l ++ c ++ data) COMMAND_CHECK_FIRMWARE None true);
  pack ← lift (encode_message_pack protocol FLAGS_MESSAGE_PROTOCOL None);
  Device_write pack;;
  read_ack COMMAND_CHECK_FIRMWARE;;
  message ← Device_read 0x2000;
  message ← lift (pack ← check_message_pack message FLAGS_MESSAGE_PROTOCOL;
                  check_message_protocol pack COMMAND_CHECK_FIRMWARE true);
  if negb (len message =? 2)
  then lift (Raise (SystemError "Invalid response length"))
  else
    m0 ← lift (index message 0);
    if negb (m0 =? 0x01)
    then lift (Raise (SystemError "Invalid response"))
    else mret ().

(** ** Auxiliary definitions used in the statements *)

(** The trailer byte that [encode_message_protocol] computes. *)
Definition trailer_of (command : Z) (data : bytes) (checksum : bool) : Z :=
  if checksum
  then (0xaa - (command + (len data + 1) mod 256 + (len data + 1) / 256
                + sum data)) mod 256
  else 0x88.

(** The four samples of one chunk, as the loop body computes them. *)
Definition chunk_samples (c0 c1 c2 c3 c4 c5 : byte) : list Z :=
  [Z.shiftl (Z.land (byte_val c0) 0xf) 8 + byte_val c1;
   Z.shiftl (byte_val c3) 4 + Z.shiftr (byte_val c0) 4;
   Z.shiftl (Z.land (byte_val c5) 0xf) 8 + byte_val c2;
   Z.shiftl (byte_val c4) 4 + Z.shiftr (byte_val c5) 4].

(** The image of a payload made of whole chunks: the samples of each chunk,
    chunk after chunk. *)
Fixpoint image_of (payload : bytes) : list Z :=
  match payload with
  | c0 :: c1 :: c2 :: c3 :: c4 :: c5 :: rest =>
      chunk_samples c0 c1 c2 c3 c4 c5 ++ image_of rest
  | _ => []
  end.

(** What the transport delivers: [frame] passes the three ack checks for
    [command], and [frame] unwraps to the message-protocol data [message]
    of a response to [command]. *)
Definition valid_ack (frame : bytes) (command : Z) : Prop :=
  exists has_no_config : bool,
    (pack ← check_message_pack frame FLAGS_MESSAGE_PROTOCOL;
     protocol ← check_message_protocol pack COMMAND_ACK true;
     check_ack protocol command) = Ok has_no_config.

Definition valid_response (frame : bytes) (command : Z) (message : bytes)
    : Prop :=
  (pack ← check_message_pack frame FLAGS_MESSAGE_PROTOCOL;
   check_message_protocol pack command true) = Ok message.

(** A simulated device reply: the message pack (flags 0xa0) around the
    checksummed message-protocol frame of [data] for [command]. *)
Definition reply (command : Z) (data : bytes) : bytes :=
  match (protocol ← encode_message_protocol data command None true;
         encode_message_pack protocol FLAGS_MESSAGE_PROTOCOL None) with
  | Ok pack => pack
  | Raise _ => []
  end.

(** The ack of [command]: an ack record with only its validity bit set. *)
Definition ack_reply (command : Z) : bytes :=
  reply COMMAND_ACK [byte_of command; x01].

(** The chunks that [Device_write] hands to the bulk-out endpoint for
    [payload], in order. *)
Definition chunks_of (payload : bytes) : list bytes :=
  let length := len payload in
  let padded :=
    if negb (length mod 0x40 =? 0)
    then payload ++ replicate (Z.to_nat (0x40 - length mod 0x40)) x00
    else payload in
  (fun i => slice padded i (i + 0x40)) <$> range 0 length 0x40.

(** The doubly framed request of [command] with payload [data]: what an
    exchange passes to [Device_write]. *)
Definition request_frame (command : Z) (data : bytes) (checksum : bool)
    : bytes :=
  match (protocol ← encode_message_protocol data command None checksum;
         encode_message_pack protocol FLAGS_MESSAGE_PROTOCOL None) with
  | Ok pack => pack
  | Raise _ => []
  end.

(** The three checks every exchange applies to the frame read as ack. *)
Definition ack_checks (frame : bytes) (command : Z) : result bool :=
  pack ← check_message_pack frame FLAGS_MESSAGE_PROTOCOL;
  protocol ← check_message_protocol pack COMMAND_ACK true;
  check_ack protocol command.

(** * Properties *)

(** [lia] also decides the divisions and remainders by constants that the
    little-endian fields and the modular checksums introduce. *)
#[local] Ltac Zify.zify_post_hook ::= Z.to_euclidean_division_equations.

(** ** Bytes, sums and slices *)

Lemma byte_val_range (b : byte) : 0 <= byte_val b <= 255.
Proof.
  unfold byte_val. pose proof (Byte.to_N_bounded b). lia.
Qed.

Lemma byte_of_val (b : byte) : byte_of (byte_val b) = b.
Proof.
  unfold byte_of, byte_val. rewrite N2Z.id. by rewrite Byte.of_to_N.
Qed.

Lemma byte_val_of (z : Z) : 0 <= z <= 255 -> byte_val (byte_of z) = z.
Proof.
  intros Hz. unfold byte_of, byte_val.
  destruct (Byte.of_N (Z.to_N z)) as [b|] eqn:Hb.
  - apply Byte.to_of_N in Hb. rewrite Hb. lia.
  - apply Byte.of_N_None_iff in Hb. lia.
Qed.

Lemma byte_val_inj (a b : byte) : byte_val a = byte_val b -> a = b.
Proof.
  intros H. rewrite <- (byte_of_val a), <- (byte_of_val b). by rewrite H.
Qed.

Lemma land_0xff (z : Z) : Z.land z 0xff = z mod 256.
Proof. exact (Z.land_ones z 8 ltac:(lia)). Qed.

Lemma sum_app (l k : bytes) : sum (l ++ k) = sum l + sum k.
Proof.
  induction l as [|b l IH]; simpl; [done|]. rewrite IH. lia.
Qed.

Lemma len_app {A : Type} (l k : list A) : len (l ++ k) = len l + len k.
Proof. unfold len. rewrite length_app. lia. Qed.

Lemma len_nonneg {A : Type} (l : list A) : 0 <= len l.
Proof. unfold len. lia. Qed.

Lemma slice_0 {A : Type} (l : list A) (hi : Z) :
  slice l 0 hi = take (Z.to_nat hi) l.
Proof. unfold slice. simpl. by rewrite Nat.sub_0_r. Qed.

Lemma slice_cons {A : Type} (x : A) (l : list A) (lo hi : Z) :
  0 < lo -> slice (x :: l) lo hi = slice l (lo - 1) (hi - 1).
Proof.
  intros Hlo. unfold slice.
  replace (Z.to_nat lo) with (S (Z.to_nat (lo - 1))) by lia. simpl.
  f_equal. lia.
Qed.

Lemma pack_B_ok (v : Z) : 0 <= v <= 255 -> pack_B v = Ok [byte_of v].
Proof.
  intros H. unfold pack_B.
  by rewrite (proj2 (Z.leb_le 0 v)), (proj2 (Z.leb_le v 255)) by lia.
Qed.

Lemma pack_H_ok (v : Z) :
  0 <= v < 65536 -> pack_H v = Ok [byte_of (v mod 256); byte_of (v / 256)].
Proof.
  intros H. unfold pack_H.
  by rewrite (proj2 (Z.leb_le 0 v)), (proj2 (Z.ltb_lt v 65536)) by lia.
Qed.

Lemma unpack_pack_H (v : Z) :
  0 <= v < 65536 ->
  unpack_H [byte_of (v mod 256); byte_of (v / 256)] = Ok (Tuple1 v).
Proof.
  intros H. unfold unpack_H. rewrite !byte_val_of by lia.
  do 2 f_equal. lia.
Qed.

(** ** Shape of the frames *)

Lemma encode_message_pack_shape (data : bytes) (flags : Z) :
  len data < 65536 -> 0 <= flags <= 255 ->
  encode_message_pack data flags None =
    Ok (byte_of flags :: byte_of (len data mod 256) :: byte_of (len data / 256)
        :: byte_of ((flags + len data mod 256 + len data / 256) mod 256)
        :: data).
Proof.
  intros Hlen Hflags. pose proof (len_nonneg data).
  unfold encode_message_pack.
  rewrite pack_B_ok by done. simpl.
  rewrite pack_H_ok by lia. simpl.
  rewrite land_0xff, !byte_val_of by lia.
  rewrite pack_B_ok by lia. simpl.
  do 6 f_equal. lia.
Qed.

Lemma decode_message_pack_cons (f l0 l1 c : byte) (rest : bytes) :
  decode_message_pack (f :: l0 :: l1 :: c :: rest) =
    if negb ((byte_val f + byte_val l0 + byte_val l1) mod 256 =? byte_val c)
    then Raise (ValueError "Invalid payload")
    else Ok (take (Z.to_nat (byte_val l0 + 256 * byte_val l1)) rest,
             byte_val f, byte_val l0 + 256 * byte_val l1).
Proof.
  unfold decode_message_pack.
  replace (slice (f :: l0 :: l1 :: c :: rest) 1 3) with [l0; l1] by done.
  replace (slice (f :: l0 :: l1 :: c :: rest) 0 3) with [f; l0; l1] by done.
  replace (index (f :: l0 :: l1 :: c :: rest) 3) with (Ok (byte_val c)) by done.
  replace (index (f :: l0 :: l1 :: c :: rest) 0) with (Ok (byte_val f)) by done.
  simpl. rewrite land_0xff.
  replace (byte_val f + (byte_val l0 + (byte_val l1 + 0)))
    with (byte_val f + byte_val l0 + byte_val l1) by lia.
  destruct (negb _); [done|]. simpl. do 3 f_equal.
  rewrite !slice_cons by (pose proof (byte_val_range l0);
                          pose proof (byte_val_range l1); lia).
  rewrite slice_0. f_equal. lia.
Qed.

Lemma encode_message_protocol_shape
    (data : bytes) (command : Z) (checksum : bool) :
  len data + 1 < 65536 -> 0 <= command <= 255 ->
  encode_message_protocol data command None checksum =
    Ok (byte_of command :: byte_of ((len data + 1) mod 256)
        :: byte_of ((len data + 1) / 256)
        :: data ++ [byte_of (trailer_of command data checksum)]).
Proof.
  intros Hlen Hcommand. pose proof (len_nonneg data).
  unfold encode_message_protocol.
  rewrite pack_B_ok by done. simpl.
  rewrite pack_H_ok by lia. simpl.
  rewrite land_0xff, !byte_val_of by lia.
  rewrite pack_B_ok by (destruct checksum; lia). simpl.
  unfold trailer_of. destruct checksum; [|done].
  do 5 f_equal. f_equal. f_equal. lia.
Qed.

Lemma decode_message_protocol_cons
    (c l0 l1 t : byte) (data pad : bytes) (checksum : bool) :
  byte_val l0 + 256 * byte_val l1 = len data + 1 ->
  decode_message_protocol (c :: l0 :: l1 :: data ++ t :: pad) checksum =
    if (if checksum
        then negb (byte_val t =?
                   (0xaa - (byte_val c + byte_val l0 + byte_val l1 + sum data))
                   mod 256)
        else negb (byte_val t =? 0x88))
    then Raise (ValueError "Invalid payload")
    else Ok (data, byte_val c, len data).
Proof.
  intros Hlen. unfold decode_message_protocol.
  replace (slice (c :: l0 :: l1 :: data ++ t :: pad) 1 3) with [l0; l1] by done.
  replace (index (c :: l0 :: l1 :: data ++ t :: pad) 0)
    with (Ok (byte_val c)) by done.
  simpl. rewrite Hlen.
  assert (Hidx : index (c :: l0 :: l1 :: data ++ t :: pad) (2 + (len data + 1))
                 = Ok (byte_val t)).
  { unfold index, len.
    replace (Z.to_nat (2 + (Z.of_nat (length data) + 1)))
      with (S (S (S (length data)))) by lia.
    simpl. by rewrite list_lookup_middle. }
  assert (Hsum : sum (slice (c :: l0 :: l1 :: data ++ t :: pad) 0
                        (2 + (len data + 1)))
                 = byte_val c + byte_val l0 + byte_val l1 + sum data).
  { rewrite slice_0. unfold len.
    replace (Z.to_nat (2 + (Z.of_nat (length data) + 1)))
      with (S (S (S (length data)))) by lia.
    rewrite !firstn_cons, take_app_length.
    change (c :: l0 :: l1 :: data) with ([c; l0; l1] ++ data).
    rewrite sum_app. simpl. lia. }
  assert (Hdata : slice (c :: l0 :: l1 :: data ++ t :: pad) 3
                    (2 + (len data + 1)) = data).
  { unfold slice, len.
    replace (Z.to_nat (2 + (Z.of_nat (length data) + 1)) - Z.to_nat 3)%nat
      with (length data) by lia.
    replace (Z.to_nat 3) with 3%nat by done.
    change (drop 3 (c :: l0 :: l1 :: data ++ t :: pad)) with (data ++ t :: pad).
    by rewrite take_app_length. }
  rewrite Hidx, Hsum, Hdata, land_0xff. simpl.
  replace (len data + 1 - 1) with (len data) by lia.
  by destruct checksum.
Qed.

(** ** Command identifiers *)

Lemma decode_encode_command_table :
  forallb (fun cmd0 =>
    forallb (fun cmd1 =>
      match decode_command (encode_command cmd0 cmd1) with
      | Ok (c0, c1) => (c0 =? cmd0) && (c1 =? cmd1)
      | Raise _ => false
      end) (seqZ 0 8)) (seqZ 0 16) = true.
Proof. by vm_compute. Qed.

Lemma decode_encode_command (cmd0 cmd1 : Z) :
  0 <= cmd0 <= 15 -> 0 <= cmd1 <= 7 ->
  decode_command (encode_command cmd0 cmd1) = Ok (cmd0, cmd1).
Proof.
  intros H0 H1. pose proof decode_encode_command_table as Htable.
  rewrite forallb_forall in Htable.
  specialize (Htable cmd0). rewrite forallb_forall in Htable.
  specialize (Htable ltac:(apply list_elem_of_In, elem_of_seqZ; lia) cmd1
                ltac:(apply list_elem_of_In, elem_of_seqZ; lia)).
  destruct (decode_command _) as [[c0 c1]|]; [|done].
  apply andb_prop in Htable as [E0 E1].
  apply Z.eqb_eq in E0, E1. by subst.
Qed.

Lemma decode_command_odd (command : Z) :
  Z.testbit command 0 = true ->
  decode_command command = Raise (ValueError "Invalid command").
Proof.
  intros Hbit. unfold decode_command.
  replace (Z.land command 1) with 1; [done|].
  change 1 with (Z.ones 1) at 2. rewrite Z.land_ones by lia.
  rewrite Z.bit0_odd in Hbit. rewrite Zodd_mod in Hbit.
  apply Z.eqb_eq in Hbit. change (2 ^ 1) with 2. lia.
Qed.

(** C4: decoding an encoded command identifier gives back its two
    sub-fields, for every [cmd0] in [0, 15] and [cmd1] in [0, 7]; and
    [decode_command] raises [ValueError] on every 8-bit identifier whose
    bit 0 is set. *)
Theorem command_id_round_trip_and_odd_rejected :
  (forall cmd0 cmd1 : Z,
     0 <= cmd0 <= 15 -> 0 <= cmd1 <= 7 ->
     decode_command (encode_command cmd0 cmd1) = Ok (cmd0, cmd1)) /\
  (forall id : Z,
     0 <= id <= 255 -> Z.testbit id 0 = true ->
     decode_command id = Raise (ValueError "Invalid command")).
Proof.
  split.
  - apply decode_encode_command.
  - intros id _. apply decode_command_odd.
Qed.

Lemma command_id_round_trip_and_odd_rejected_witness :
  decode_command (encode_command 0xe 0x2) = Ok (0xe, 0x2) /\
  decode_command 0xe5 = Raise (ValueError "Invalid command").
Proof.
  split.
  - apply (proj1 command_id_round_trip_and_odd_rejected 0xe 0x2); lia.
  - apply (proj2 command_id_round_trip_and_odd_rejected 0xe5); [lia|reflexivity].
Defined.

(** ** Message pack *)

(** C1: for every data of fewer than 2^16 bytes and every flags value in
    [0, 255], [encode_message_pack] returns a payload, and
    [decode_message_pack] of that payload returns [(data, flags, len data)]
    without raising. *)
Theorem message_pack_round_trip (data : bytes) (flags : Z) :
  len data < 2 ^ 16 -> 0 <= flags <= 255 ->
  exists payload : bytes,
    encode_message_pack data flags None = Ok payload /\
    decode_message_pack payload = Ok (data, flags, len data).
Proof.
  intros Hlen Hflags. pose proof (len_nonneg data).
  change (2 ^ 16) with 65536 in Hlen.
  eexists. split; [by apply encode_message_pack_shape|].
  rewrite decode_message_pack_cons, !byte_val_of by lia.
  rewrite Z.eqb_refl. simpl.
  replace (len data mod 256 + 256 * (len data / 256)) with (len data) by lia.
  unfold len. rewrite Nat2Z.id, firstn_all. done.
Qed.

Lemma message_pack_round_trip_witness :
  len [x01; x02; x03] < 2 ^ 16 /\ 0 <= 0xa0 <= 255 /\
  exists payload : bytes,
    encode_message_pack [x01; x02; x03] 0xa0 None = Ok payload /\
    decode_message_pack payload = Ok ([x01; x02; x03], 0xa0, 3).
Proof.
  split; [reflexivity|]. split; [lia|].
  apply (message_pack_round_trip [x01; x02; x03] 0xa0); [reflexivity|lia].
Defined.

(** ** Message protocol *)

(** C2: for every data with [len data + 1 < 2^16], every command in
    [0, 255] and both checksum policies, [encode_message_protocol] returns
    a payload whose length field (bytes 1 and 2, little-endian) is
    [len data + 1], and [decode_message_protocol] of that payload under the
    same policy returns [(data, command, len data)] without raising. *)
Theorem message_protocol_round_trip
    (data : bytes) (command : Z) (useChecksum : bool) :
  len data + 1 < 2 ^ 16 -> 0 <= command <= 255 ->
  exists payload : bytes,
    encode_message_protocol data command None useChecksum = Ok payload /\
    decode_message_protocol payload useChecksum
      = Ok (data, command, len data) /\
    unpack_H (slice payload 1 3) = Ok (Tuple1 (len data + 1)).
Proof.
  intros Hlen Hcommand. pose proof (len_nonneg data).
  change (2 ^ 16) with 65536 in Hlen.
  eexists. split; [by apply encode_message_protocol_shape|]. split.
  - rewrite decode_message_protocol_cons by (rewrite !byte_val_of; lia).
    rewrite !byte_val_of
      by (unfold trailer_of; destruct useChecksum; lia).
    unfold trailer_of. destruct useChecksum; by rewrite Z.eqb_refl.
  - rewrite slice_cons by lia. rewrite slice_0.
    change (take (Z.to_nat (3 - 1)) (?a :: ?b :: ?l)) with [a; b].
    apply unpack_pack_H. lia.
Qed.

Lemma message_protocol_round_trip_witness :
  len [x55] + 1 < 2 ^ 16 /\ 0 <= 0xae <= 255 /\
  exists payload : bytes,
    encode_message_protocol [x55] 0xae None true = Ok payload /\
    decode_message_protocol payload true = Ok ([x55], 0xae, 1) /\
    unpack_H (slice payload 1 3) = Ok (Tuple1 2).
Proof.
  split; [reflexivity|]. split; [lia|].
  apply (message_protocol_round_trip [x55] 0xae true); [reflexivity|lia].
Defined.

(** ** Image samples *)

Lemma chunk_samples_12bit (c0 c1 c2 c3 c4 c5 : byte) :
  Forall (fun s => 0 <= s <= 4095) (chunk_samples c0 c1 c2 c3 c4 c5).
Proof.
  pose proof (byte_val_range c0). pose proof (byte_val_range c1).
  pose proof (byte_val_range c2). pose proof (byte_val_range c3).
  pose proof (byte_val_range c4). pose proof (byte_val_range c5).
  unfold chunk_samples.
  change 0xf with (Z.ones 4). rewrite !Z.land_ones by lia.
  rewrite !Z.shiftl_mul_pow2, !Z.shiftr_div_pow2 by lia.
  change (2 ^ 4) with 16. change (2 ^ 8) with 256.
  repeat constructor; lia.
Qed.

(** Loop rule for [decode_image]: a body that appends the samples of the
    chunk at offset [i] turns the accumulator into the accumulator followed
    by the image of the remaining chunks. *)
Lemma for_each_chunks
    (body : list Z -> Z -> result (list Z)) (payload : bytes) (n : nat) :
  (forall image i c0 c1 c2 c3 c4 c5,
     slice payload i (i + 6) = [c0; c1; c2; c3; c4; c5] ->
     body image i = Ok (image ++ chunk_samples c0 c1 c2 c3 c4 c5)) ->
  forall (pre rest : bytes) (acc : list Z) (j : Z),
    payload = pre ++ rest -> 0 <= j -> len pre = 6 * j ->
    length rest = (6 * n)%nat ->
    for_each ((fun k => 0 + 6 * k) <$> seqZ j (Z.of_nat n)) body acc
      = Ok (acc ++ image_of rest).
Proof.
  intros Hbody. induction n as [|n IH]; intros pre rest acc j -> Hj Hpre Hrest.
  - destruct rest; [|done]. simpl. by rewrite app_nil_r.
  - destruct rest as [|c0 [|c1 [|c2 [|c3 [|c4 [|c5 rest]]]]]];
      try (simpl in Hrest; lia).
    rewrite seqZ_cons by lia. rewrite fmap_cons.
    cbn [for_each].
    rewrite (Hbody acc (0 + 6 * j) c0 c1 c2 c3 c4 c5).
    + cbn [mbind result_bind].
      replace (Z.pred (Z.of_nat (S n))) with (Z.of_nat n) by lia.
      rewrite (IH (pre ++ [c0; c1; c2; c3; c4; c5]) rest _ (Z.succ j)).
      * cbn [image_of]. by rewrite <- app_assoc.
      * by rewrite <- app_assoc.
      * lia.
      * rewrite len_app. unfold len in *. simpl. lia.
      * simpl in Hrest. lia.
    + unfold slice, len in *.
      replace (Z.to_nat (0 + 6 * j)) with (length pre) by lia.
      replace (Z.to_nat (0 + 6 * j + 6) - length pre)%nat with 6%nat by lia.
      by rewrite drop_app_length.
Qed.

Lemma decode_image_whole_chunks (payload : bytes) :
  len payload mod 6 = 0 -> decode_image payload = Ok (image_of payload).
Proof.
  intros Hmod. unfold decode_image, range.
  replace ((len payload - 0 + 6 - 1) / 6)
    with (Z.of_nat (Z.to_nat (len payload / 6)))
    by (pose proof (len_nonneg payload); lia).
  apply (for_each_chunks _ payload _) with (pre := []) (acc := []).
  - intros image i c0 c1 c2 c3 c4 c5 ->. simpl.
    unfold chunk_samples. rewrite <- !app_assoc. done.
  - done.
  - done.
  - done.
  - pose proof (len_nonneg payload). unfold len in *. lia.
Qed.

Lemma image_of_length (n : nat) (payload : bytes) :
  length payload = (6 * n)%nat -> length (image_of payload) = (4 * n)%nat.
Proof.
  revert payload. induction n as [|n IH]; intros payload Hlen.
  - by destruct payload.
  - destruct payload as [|c0 [|c1 [|c2 [|c3 [|c4 [|c5 rest]]]]]];
      try (simpl in Hlen; lia).
    cbn [image_of]. rewrite length_app, (IH rest) by (simpl in Hlen; lia).
    simpl. lia.
Qed.

Lemma image_of_12bit (payload : bytes) :
  Forall (fun s => 0 <= s <= 4095) (image_of payload).
Proof.
  induction payload as [payload IH] using (induction_ltof1 _ (@length byte)).
  unfold ltof in IH.
  destruct payload as [|c0 [|c1 [|c2 [|c3 [|c4 [|c5 rest]]]]]];
    try by constructor.
  cbn [image_of]. apply Forall_app. split.
  - apply chunk_samples_12bit.
  - apply IH. simpl. lia.
Qed.

Lemma image_of_chunk (k : nat) :
  forall (payload : bytes) (c0 c1 c2 c3 c4 c5 : byte),
    take 6 (drop (6 * k) payload) = [c0; c1; c2; c3; c4; c5] ->
    take 4 (drop (4 * k) (image_of payload))
      = chunk_samples c0 c1 c2 c3 c4 c5.
Proof.
  induction k as [|k IH]; intros payload c0 c1 c2 c3 c4 c5 Hchunk.
  - destruct payload as [|d0 [|d1 [|d2 [|d3 [|d4 [|d5 rest]]]]]]; try done.
    simpl in Hchunk. by simplify_eq.
  - destruct payload as [|d0 [|d1 [|d2 [|d3 [|d4 [|d5 rest]]]]]];
      try (by rewrite ?drop_nil in Hchunk);
      try (replace (6 * S k)%nat with (S (S (S (S (S (S (6 * k))))))) in Hchunk
             by lia; simpl in Hchunk; by rewrite ?drop_nil in Hchunk).
    replace (6 * S k)%nat with (S (S (S (S (S (S (6 * k))))))) in Hchunk by lia.
    replace (4 * S k)%nat with (S (S (S (S (4 * k))))) by lia.
    cbn [image_of chunk_samples app drop]. cbn [drop] in Hchunk.
    by apply IH.
Qed.

(** C5: for every payload whose length is a multiple of 6, [decode_image]
    returns a list with exactly 4 samples per 6-byte chunk, every sample an
    unsigned 12-bit value, and the 4 samples at position [k] of the output
    are those of chunk [k] of the input under the fixed bit-interleaving;
    the chunk [0x12, 0x34, 0x56, 0x78, 0x9a, 0xbc] decodes to
    [0x234, 0x781, 0xc56, 0x9ab]. *)
Theorem decode_image_four_samples_per_chunk :
  (forall payload : bytes,
     len payload mod 6 = 0 ->
     exists image : list Z,
       decode_image payload = Ok image /\
       len image = 4 * (len payload / 6) /\
       Forall (fun s => 0 <= s <= 4095) image /\
       forall (k : Z) (c0 c1 c2 c3 c4 c5 : byte),
         0 <= k ->
         slice payload (6 * k) (6 * k + 6) = [c0; c1; c2; c3; c4; c5] ->
         slice image (4 * k) (4 * k + 4) =
           [Z.shiftl (Z.land (byte_val c0) 0xf) 8 + byte_val c1;
            Z.shiftl (byte_val c3) 4 + Z.shiftr (byte_val c0) 4;
            Z.shiftl (Z.land (byte_val c5) 0xf) 8 + byte_val c2;
            Z.shiftl (byte_val c4) 4 + Z.shiftr (byte_val c5) 4]) /\
  decode_image [x12; x34; x56; x78; x9a; xbc] = Ok [0x234; 0x781; 0xc56; 0x9ab].
Proof.
  split; [|reflexivity].
  intros payload Hmod. exists (image_of payload).
  split; [by apply decode_image_whole_chunks|].
  pose proof (len_nonneg payload) as Hnonneg. split; [|split].
  - unfold len in *.
    rewrite (image_of_length (Z.to_nat (Z.of_nat (length payload) / 6))); lia.
  - apply image_of_12bit.
  - intros k c0 c1 c2 c3 c4 c5 Hk Hchunk.
    change (slice (image_of payload) (4 * k) (4 * k + 4)
            = chunk_samples c0 c1 c2 c3 c4 c5).
    unfold slice in *.
    replace (Z.to_nat (4 * k + 4) - Z.to_nat (4 * k))%nat with 4%nat by lia.
    replace (Z.to_nat (6 * k + 6) - Z.to_nat (6 * k))%nat with 6%nat
      in Hchunk by lia.
    replace (Z.to_nat (4 * k)) with (4 * Z.to_nat k)%nat by lia.
    replace (Z.to_nat (6 * k)) with (6 * Z.to_nat k)%nat in Hchunk by lia.
    by apply image_of_chunk.
Qed.

Lemma decode_image_four_samples_per_chunk_witness :
  len [x12; x34; x56; x78; x9a; xbc; xff; x00; x01; x02; x03; x04] mod 6 = 0 /\
  exists image : list Z,
    decode_image [x12; x34; x56; x78; x9a; xbc; xff; x00; x01; x02; x03; x04]
      = Ok image /\
    len image = 4 * (12 / 6) /\
    Forall (fun s => 0 <= s <= 4095) image /\
    forall (k : Z) (c0 c1 c2 c3 c4 c5 : byte),
      0 <= k ->
      slice [x12; x34; x56; x78; x9a; xbc; xff; x00; x01; x02; x03; x04]
        (6 * k) (6 * k + 6) = [c0; c1; c2; c3; c4; c5] ->
      slice image (4 * k) (4 * k + 4) =
        [Z.shiftl (Z.land (byte_val c0) 0xf) 8 + byte_val c1;
         Z.shiftl (byte_val c3) 4 + Z.shiftr (byte_val c0) 4;
         Z.shiftl (Z.land (byte_val c5) 0xf) 8 + byte_val c2;
         Z.shiftl (byte_val c4) 4 + Z.shiftr (byte_val c5) 4].
Proof.
  split; [reflexivity|].
  apply (proj1 decode_image_four_samples_per_chunk
           [x12; x34; x56; x78; x9a; xbc; xff; x00; x01; x02; x03; x04]).
  reflexivity.
Defined.

(** ** MCU state *)

(** C6 (code defect): on every payload of at least 14
    bytes [decode_mcu_state] raises [struct.error] instead of returning the
    9-tuple, because the wake-up-to-POV field is unpacked as a u16 from the
    one-byte slice [payload[10:11]]. *)
Theorem decode_mcu_state_raises (payload : bytes) :
  14 <= len payload -> decode_mcu_state payload = Raise StructError.
Proof.
  intros Hlen. unfold len in Hlen.
  do 14 (destruct payload as [|? payload]; [simpl in Hlen; lia|]).
  reflexivity.
Qed.

Lemma decode_mcu_state_raises_witness :
  14 <= len (replicate 16 x00) /\
  decode_mcu_state (replicate 16 x00) = Raise StructError.
Proof.
  split; [by vm_compute|].
  apply (decode_mcu_state_raises (replicate 16 x00)). by vm_compute.
Defined.

(** ** Sensor registers *)

(** C7 (code defect): a batch-mode call to
    [write_sensor_register] whose address and value lists have the same
    length raises [TypeError] at [for i in length], before any request is
    built or written: the device is left untouched and no ack is read. *)
Theorem write_sensor_register_batch_raises
    (address : list Z) (value : list bytes) (dev : Device) :
  len value = len address ->
  write_sensor_register (AddressList address) (ValueList value) dev
    = (Raise TypeError, dev).
Proof.
  intros Hlen. unfold write_sensor_register. rewrite Hlen, Z.eqb_refl.
  reflexivity.
Qed.

Lemma write_sensor_register_batch_raises_witness :
  len [[x01; x02]] = len [0x0220] /\
  write_sensor_register (AddressList [0x0220]) (ValueList [[x01; x02]])
    (mkDevice [] []) = (Raise TypeError, mkDevice [] []).
Proof.
  split; [reflexivity|].
  by apply (write_sensor_register_batch_raises
              [0x0220] [[x01; x02]] (mkDevice [] [])).
Defined.

(** ** Command exchanges *)

Lemma bind_lift_Ok {A B : Type} (a : A) (k : A -> M B) (dev : Device) :
  (x ← lift (Ok a); k x) dev = k a dev.
Proof. reflexivity. Qed.

Lemma for_each_M_usb_write (l : list Z) (f : Z -> bytes) (dev : Device) :
  for_each_M l (fun i => usb_write (f i)) dev
    = (Ok (), mkDevice (written dev ++ (f <$> l)) (incoming dev)).
Proof.
  revert dev. induction l as [|i l IH]; intros dev.
  - simpl. rewrite app_nil_r. by destruct dev.
  - cbn [for_each_M]. unfold mbind, M_bind. cbn [usb_write].
    rewrite IH. cbn [written incoming fmap list_fmap].
    by rewrite <- app_assoc.
Qed.

Lemma Device_write_incoming (payload : bytes) (dev : Device) :
  exists chunks : list bytes,
    Device_write payload dev
      = (Ok (), mkDevice (written dev ++ chunks) (incoming dev)).
Proof.
  unfold Device_write. eexists. apply for_each_M_usb_write.
Qed.

(** The request, ack and response steps that every exchange with a data
    response shares: once the request fits its two frames and the
    transport holds a valid ack and a valid response, the exchange reaches
    the command's own validation [k] of the response data. *)
Lemma exchange {A : Type}
    (command : Z) (request : bytes) (k : bytes -> M A)
    (dev : Device) (ack response message : bytes) (rest : list bytes) :
  len request + 4 < 65536 -> 0 <= command <= 255 ->
  incoming dev = ack :: response :: rest ->
  valid_ack ack command -> valid_response response command message ->
  exists chunks : list bytes,
    (protocol ← lift (encode_message_protocol request command None true);
     pack ← lift (encode_message_pack protocol FLAGS_MESSAGE_PROTOCOL None);
     Device_write pack;;
     read_ack command;;
     message ← Device_read 0x2000;
     message ← lift (pack ← check_message_pack message FLAGS_MESSAGE_PROTOCOL;
                     check_message_protocol pack command true);
     k message) dev
    = k message (mkDevice (written dev ++ chunks) rest).
Proof.
  intros Hlen Hcommand Hincoming [has_no_config Hack] Hresponse.
  pose proof (len_nonneg request).
  rewrite encode_message_protocol_shape by lia. rewrite bind_lift_Ok.
  rewrite encode_message_pack_shape; [|unfold len in *; simpl; rewrite length_app; simpl; lia|done].
  rewrite bind_lift_Ok.
  match goal with |- context [Device_write ?p] =>
    destruct (Device_write_incoming p dev) as [chunks Hwrite] end.
  exists chunks.
  unfold mbind at 1, M_bind at 1. rewrite Hwrite.
  unfold mbind at 1, M_bind at 1.
  unfold read_ack, Device_read.
  unfold mbind at 1, M_bind at 1. unfold usb_read at 1. cbn [incoming written].
  rewrite Hincoming.
  unfold lift at 1. rewrite Hack.
  unfold mbind at 1, M_bind at 1. unfold usb_read at 1. cbn [incoming written].
  unfold valid_response in Hresponse. rewrite Hresponse.
  by rewrite bind_lift_Ok.
Qed.

Lemma pack_I_ok (v : Z) :
  0 <= v < 4294967296 ->
  pack_I v = Ok [byte_of (v mod 256); byte_of (v / 256 mod 256);
                 byte_of (v / 65536 mod 256); byte_of (v / 16777216)].
Proof.
  intros H. unfold pack_I.
  by rewrite (proj2 (Z.leb_le 0 v)), (proj2 (Z.ltb_lt v 4294967296)) by lia.
Qed.

(** Runs the shared steps of an exchange whose response data is [message],
    leaving the command's own validation of [message] as the goal. *)
Ltac run_exchange command message Hincoming Hack Hresponse :=
  lazymatch type of Hincoming with
  | incoming ?dev = ?ack :: ?response :: ?rest =>
      lazymatch goal with
      | |- context [mbind ?f (lift (encode_message_protocol
                                      ?request command None true)) dev] =>
          lazymatch f with
          | context [mbind (fun m => mbind ?k (lift (@?c m)))
                       (Device_read _)] =>
              let chunks := fresh "chunks" in
              let E := fresh "E" in
              destruct (exchange command request k dev ack response message rest)
                as [chunks E];
              [| |exact Hincoming|exact Hack|exact Hresponse|];
              [| |lazymatch type of E with
                  | ?l = _ =>
                      change (mbind f (lift (encode_message_protocol
                                               request command None true)) dev)
                        with l
                  end; rewrite E; clear E; cbv beta]
          end
      end
  end.

(** ** Preset PSK *)

(** C10: in [preset_psk_write_r], when a valid ack is followed by a valid
    data response whose message-protocol data is empty, the guard
    [len(message) > 2] does not fire, and reading [message[0]] is out of
    bounds: the call ends in [IndexError], neither returning nor raising
    the [SystemError] of the invalid-response branches. *)
Theorem preset_psk_write_r_empty_response
    (address length : Z) (data : bytes) (dev : Device)
    (ack response : bytes) (rest : list bytes) :
  0 <= address < 2 ^ 32 -> 0 <= length < 2 ^ 32 -> len data + 12 < 2 ^ 16 ->
  incoming dev = ack :: response :: rest ->
  valid_ack ack COMMAND_PRESET_PSK_WRITE_R ->
  valid_response response COMMAND_PRESET_PSK_WRITE_R [] ->
  (2 <? len ([] : bytes)) = false /\
  index [] 0 = Raise IndexError /\
  (preset_psk_write_r address length data dev).1 = Raise IndexError.
Proof.
  intros Haddress Hlength Hdata Hincoming Hack Hresponse.
  split; [done|]. split; [done|].
  change (2 ^ 32) with 4294967296 in *. change (2 ^ 16) with 65536 in *.
  unfold preset_psk_write_r.
  rewrite (pack_I_ok address), bind_lift_Ok by done.
  rewrite (pack_I_ok length), bind_lift_Ok by done.
  run_exchange COMMAND_PRESET_PSK_WRITE_R (@nil byte)
    Hincoming Hack Hresponse.
  - rewrite !len_app. unfold len. simpl. unfold len in Hdata. lia.
  - done.
  - reflexivity.
Qed.

Lemma preset_psk_write_r_empty_response_witness :
  0 <= 0x1234 < 2 ^ 32 /\ 0 <= 2 < 2 ^ 32 /\ len [xaa; xbb] + 12 < 2 ^ 16 /\
  valid_ack (ack_reply COMMAND_PRESET_PSK_WRITE_R) COMMAND_PRESET_PSK_WRITE_R /\
  valid_response (reply COMMAND_PRESET_PSK_WRITE_R [])
    COMMAND_PRESET_PSK_WRITE_R [] /\
  (preset_psk_write_r 0x1234 2 [xaa; xbb]
     (mkDevice [] [ack_reply COMMAND_PRESET_PSK_WRITE_R;
                   reply COMMAND_PRESET_PSK_WRITE_R []])).1
    = Raise IndexError.
Proof.
  assert (Hack : valid_ack (ack_reply COMMAND_PRESET_PSK_WRITE_R)
                   COMMAND_PRESET_PSK_WRITE_R)
    by (exists false; vm_compute; reflexivity).
  assert (Hresponse : valid_response (reply COMMAND_PRESET_PSK_WRITE_R [])
                        COMMAND_PRESET_PSK_WRITE_R [])
    by (vm_compute; reflexivity).
  split; [lia|]. split; [lia|]. split; [reflexivity|].
  split; [exact Hack|]. split; [exact Hresponse|].
  apply (preset_psk_write_r_empty_response 0x1234 2 [xaa; xbb]
           (mkDevice [] [ack_reply COMMAND_PRESET_PSK_WRITE_R;
                         reply COMMAND_PRESET_PSK_WRITE_R []])
           (ack_reply COMMAND_PRESET_PSK_WRITE_R)
           (reply COMMAND_PRESET_PSK_WRITE_R []) []);
    [lia|lia|reflexivity|reflexivity|exact Hack|exact Hresponse].
Defined.

(** C9: in a [PRESET_PSK_READ_R] exchange that receives a valid ack and a
    valid data response, a 9-byte response with byte 0 equal to 0x00,
    bytes 1-4 echoing the requested address and a PSK length field of 0
    makes [preset_psk_read_r] return the empty byte-string; in general a
    response with byte 0 equal to 0x00, the address echoed and at least
    [psk_length] bytes after offset 9 returns bytes 9 .. 9 + psk_length,
    and a response shorter than 9 bytes, or with fewer than [psk_length]
    bytes after offset 9, raises [SystemError] (invalid response length). *)
Theorem preset_psk_read_r_response
    (address length : Z) (dev : Device)
    (ack response message : bytes) (rest : list bytes) :
  0 <= address < 2 ^ 32 -> 0 <= length < 2 ^ 32 ->
  incoming dev = ack :: response :: rest ->
  valid_ack ack COMMAND_PRESET_PSK_READ_R ->
  valid_response response COMMAND_PRESET_PSK_READ_R message ->
  let returned := (preset_psk_read_r address length dev).1 in
  (forall a0 a1 a2 a3 : byte,
     message = [x00; a0; a1; a2; a3; x00; x00; x00; x00] ->
     u32_le a0 a1 a2 a3 = address ->
     returned = Ok []) /\
  (forall (a0 a1 a2 a3 p0 p1 p2 p3 : byte) (tail : bytes),
     message = x00 :: a0 :: a1 :: a2 :: a3 :: p0 :: p1 :: p2 :: p3 :: tail ->
     u32_le a0 a1 a2 a3 = address ->
     u32_le p0 p1 p2 p3 <= len tail ->
     returned = Ok (slice message 9 (9 + u32_le p0 p1 p2 p3))) /\
  (len message < 9 ->
     returned = Raise (SystemError "Invalid response length")) /\
  (forall (m0 a0 a1 a2 a3 p0 p1 p2 p3 : byte) (tail : bytes),
     message = m0 :: a0 :: a1 :: a2 :: a3 :: p0 :: p1 :: p2 :: p3 :: tail ->
     len tail < u32_le p0 p1 p2 p3 ->
     returned = Raise (SystemError "Invalid response length")).
Proof.
  intros Haddress Hlength Hincoming Hack Hresponse returned.
  subst returned.
  change (2 ^ 32) with 4294967296 in *.
  unfold preset_psk_read_r.
  rewrite (pack_I_ok address), bind_lift_Ok by done.
  rewrite (pack_I_ok length), bind_lift_Ok by done.
  run_exchange COMMAND_PRESET_PSK_READ_R message Hincoming Hack Hresponse;
    [done|done|].
  assert (Hgeneral :
    forall (a0 a1 a2 a3 p0 p1 p2 p3 : byte) (tail : bytes),
      message = x00 :: a0 :: a1 :: a2 :: a3 :: p0 :: p1 :: p2 :: p3 :: tail ->
      u32_le a0 a1 a2 a3 = address ->
      u32_le p0 p1 p2 p3 <= len tail ->
      ((if len message <? 9
        then lift (Raise (SystemError "Invalid response length"))
        else
          t ← lift (unpack_I (slice message 5 9));
          if len message - 9 <? item0 t
          then lift (Raise (SystemError "Invalid response length"))
          else
            m0 ← lift (index message 0);
            if negb (m0 =? 0)
            then lift (Raise (SystemError "Invalid response"))
            else
              t0 ← lift (unpack_I (slice message 1 5));
              if negb (item0 t0 =? address)
              then lift (Raise (SystemError "Invalid response"))
              else mret (slice message 9 (9 + item0 t)))
         (mkDevice (written dev ++ chunks) rest)).1
      = Ok (slice message 9 (9 + u32_le p0 p1 p2 p3))).
  { intros a0 a1 a2 a3 p0 p1 p2 p3 tail -> Hecho Hpsk.
    assert (Hlen : len (x00 :: a0 :: a1 :: a2 :: a3
                        :: p0 :: p1 :: p2 :: p3 :: tail) = len tail + 9)
      by (unfold len; simpl; lia).
    pose proof (len_nonneg tail).
    rewrite Hlen.
    destruct (Z.ltb_spec (len tail + 9) 9); [lia|].
    change (slice (x00 :: a0 :: a1 :: a2 :: a3
                   :: p0 :: p1 :: p2 :: p3 :: tail) 5 9)
      with [p0; p1; p2; p3].
    cbn [unpack_I]. rewrite bind_lift_Ok. cbn [item0].
    destruct (Z.ltb_spec (len tail + 9 - 9) (u32_le p0 p1 p2 p3)); [lia|].
    change (index (x00 :: a0 :: a1 :: a2 :: a3
                   :: p0 :: p1 :: p2 :: p3 :: tail) 0)
      with (Ok (byte_val x00)).
    rewrite bind_lift_Ok.
    change (byte_val x00 =? 0) with true. cbn [negb].
    change (slice (x00 :: a0 :: a1 :: a2 :: a3
                   :: p0 :: p1 :: p2 :: p3 :: tail) 1 5)
      with [a0; a1; a2; a3].
    cbn [unpack_I]. rewrite bind_lift_Ok. cbn [item0].
    rewrite Hecho, Z.eqb_refl. reflexivity. }
  split; [|split; [|split]].
  - intros a0 a1 a2 a3 -> Hecho.
    exact (Hgeneral a0 a1 a2 a3 x00 x00 x00 x00 [] eq_refl Hecho
             ltac:(by vm_compute)).
  - exact Hgeneral.
  - intros Hshort.
    destruct (Z.ltb_spec (len message) 9); [reflexivity|lia].
  - intros m0 a0 a1 a2 a3 p0 p1 p2 p3 tail -> Hpsk.
    assert (Hlen : len (m0 :: a0 :: a1 :: a2 :: a3
                        :: p0 :: p1 :: p2 :: p3 :: tail) = len tail + 9)
      by (unfold len; simpl; lia).
    pose proof (len_nonneg tail).
    rewrite Hlen.
    destruct (Z.ltb_spec (len tail + 9) 9); [lia|].
    change (slice (m0 :: a0 :: a1 :: a2 :: a3
                   :: p0 :: p1 :: p2 :: p3 :: tail) 5 9)
      with [p0; p1; p2; p3].
    cbn [unpack_I]. rewrite bind_lift_Ok. cbn [item0].
    destruct (Z.ltb_spec (len tail + 9 - 9) (u32_le p0 p1 p2 p3)); [|lia].
    reflexivity.
Qed.

Lemma preset_psk_read_r_response_witness :
  0 <= 0x1234 < 2 ^ 32 /\ 0 <= 0 < 2 ^ 32 /\
  valid_ack (ack_reply COMMAND_PRESET_PSK_READ_R) COMMAND_PRESET_PSK_READ_R /\
  valid_response
    (reply COMMAND_PRESET_PSK_READ_R
       [x00; x34; x12; x00; x00; x00; x00; x00; x00])
    COMMAND_PRESET_PSK_READ_R
    [x00; x34; x12; x00; x00; x00; x00; x00; x00] /\
  (preset_psk_read_r 0x1234 0
     (mkDevice [] [ack_reply COMMAND_PRESET_PSK_READ_R;
                   reply COMMAND_PRESET_PSK_READ_R
                     [x00; x34; x12; x00; x00; x00; x00; x00; x00]])).1
    = Ok [].
Proof.
  assert (Hack : valid_ack (ack_reply COMMAND_PRESET_PSK_READ_R)
                   COMMAND_PRESET_PSK_READ_R)
    by (exists false; vm_compute; reflexivity).
  assert (Hresponse :
            valid_response
              (reply COMMAND_PRESET_PSK_READ_R
                 [x00; x34; x12; x00; x00; x00; x00; x00; x00])
              COMMAND_PRESET_PSK_READ_R
              [x00; x34; x12; x00; x00; x00; x00; x00; x00])
    by (vm_compute; reflexivity).
  split; [lia|]. split; [lia|]. split; [exact Hack|]. split; [exact Hresponse|].
  exact (proj1 (preset_psk_read_r_response 0x1234 0
                  (mkDevice [] [ack_reply COMMAND_PRESET_PSK_READ_R;
                                reply COMMAND_PRESET_PSK_READ_R
                                  [x00; x34; x12; x00; x00;
                                   x00; x00; x00; x00]])
                  (ack_reply COMMAND_PRESET_PSK_READ_R)
                  (reply COMMAND_PRESET_PSK_READ_R
                     [x00; x34; x12; x00; x00; x00; x00; x00; x00])
                  [x00; x34; x12; x00; x00; x00; x00; x00; x00] []
                  ltac:(lia) ltac:(lia) eq_refl Hack Hresponse)
           x34 x12 x00 x00 eq_refl eq_refl).
Defined.

(** ** Reading sensor registers in batch mode *)

Lemma result_bind_Ok {A B : Type} (a : A) (k : A -> result B) :
  (x ← Ok a; k x) = k a.
Proof. reflexivity. Qed.

Lemma for_each_pack_H (address : list Z) (acc : bytes) :
  Forall (fun a => 0 <= a < 65536) address ->
  exists packed : bytes,
    for_each address (fun message value => a ← pack_H value; Ok (message ++ a))
      acc = Ok (acc ++ packed) /\
    len packed = 2 * len address.
Proof.
  intros Hrange. revert acc.
  induction Hrange as [|a address Ha _ IH]; intros acc.
  - exists []. by rewrite app_nil_r.
  - cbn [for_each]. rewrite pack_H_ok, result_bind_Ok by done.
    rewrite result_bind_Ok.
    destruct (IH (acc ++ [byte_of (a mod 256); byte_of (a / 256)]))
      as (packed & -> & Hlen).
    eexists. rewrite <- app_assoc. split; [reflexivity|].
    rewrite len_app. unfold len in *. simpl. lia.
Qed.

Lemma for_each_append {A B : Type} (g : A -> B) (l : list A) (acc : list B) :
  for_each l (fun value i => Ok (value ++ [g i])) acc = Ok (acc ++ (g <$> l)).
Proof.
  revert acc. induction l as [|x l IH]; intros acc.
  - simpl. by rewrite app_nil_r.
  - cbn [for_each]. rewrite result_bind_Ok, IH.
    rewrite fmap_cons, <- app_assoc. done.
Qed.

(** C8 (amended): in batch mode with [n] addresses and requested length 2,
    after a valid ack the exchange succeeds exactly when the data-response
    payload is [2 * n + 1] bytes long, [n] concatenated 2-byte values
    followed by one further byte that is ignored; the returned list then
    holds those [n] 2-byte values in order, and any other response length,
    [2 * n] included, raises [SystemError] (invalid response length). *)
Theorem read_sensor_register_batch_response
    (address : list Z) (dev : Device)
    (ack response message : bytes) (rest : list bytes) :
  Forall (fun a => 0 <= a < 2 ^ 16) address ->
  2 * len address + 6 < 2 ^ 16 ->
  incoming dev = ack :: response :: rest ->
  valid_ack ack COMMAND_READ_SENSOR_REGISTER ->
  valid_response response COMMAND_READ_SENSOR_REGISTER message ->
  (len message = 2 * len address + 1 ->
   (read_sensor_register (AddressList address) 2 dev).1
     = Ok (ValueList ((fun k => slice message (2 * k) (2 * k + 2))
                        <$> seqZ 0 (len address)))) /\
  (len message <> 2 * len address + 1 ->
   (read_sensor_register (AddressList address) 2 dev).1
     = Raise (SystemError "Invalid response length")).
Proof.
  intros Hrange Hfit Hincoming Hack Hresponse.
  change (2 ^ 16) with 65536 in *.
  destruct (for_each_pack_H address ([] ++ [x01]) Hrange)
    as (packed & Hpacked & Hlen).
  unfold read_sensor_register.
  change (negb (2 =? 2)) with false. cbv iota.
  rewrite Hpacked, result_bind_Ok.
  rewrite (pack_B_ok 2), result_bind_Ok by lia.
  rewrite bind_lift_Ok.
  run_exchange COMMAND_READ_SENSOR_REGISTER message Hincoming Hack Hresponse.
  - rewrite !len_app. change (len [x01]) with 1.
    change (len ([] : bytes)) with 0. change (len [byte_of 2]) with 1. lia.
  - done.
  - split.
    + intros Hmessage.
      replace (len message - 1) with (len address * 2) by lia.
      rewrite Z.eqb_refl. cbn [negb].
      rewrite for_each_append, bind_lift_Ok. cbn [app mret M_ret fst].
      do 2 f_equal. unfold range. rewrite <- list_fmap_compose.
      replace ((len address * 2 - 0 + 2 - 1) / 2) with (len address) by lia.
      apply list_fmap_ext. intros _ k _. simpl. f_equal; lia.
    + intros Hmessage.
      destruct (Z.eqb_spec (len message - 1) (len address * 2)); [lia|].
      reflexivity.
Qed.

Lemma read_sensor_register_batch_response_witness :
  Forall (fun a => 0 <= a < 2 ^ 16) [0x0220; 0x0222] /\
  2 * len [0x0220; 0x0222] + 6 < 2 ^ 16 /\
  valid_ack (ack_reply COMMAND_READ_SENSOR_REGISTER)
    COMMAND_READ_SENSOR_REGISTER /\
  valid_response
    (reply COMMAND_READ_SENSOR_REGISTER [x01; x02; x03; x04; x05])
    COMMAND_READ_SENSOR_REGISTER [x01; x02; x03; x04; x05] /\
  len [x01; x02; x03; x04; x05] = 2 * len [0x0220; 0x0222] + 1 /\
  (read_sensor_register (AddressList [0x0220; 0x0222]) 2
     (mkDevice [] [ack_reply COMMAND_READ_SENSOR_REGISTER;
                   reply COMMAND_READ_SENSOR_REGISTER
                     [x01; x02; x03; x04; x05]])).1
    = Ok (ValueList [[x01; x02]; [x03; x04]]).
Proof.
  assert (Hrange : Forall (fun a => 0 <= a < 2 ^ 16) [0x0220; 0x0222])
    by (repeat constructor; lia).
  assert (Hack : valid_ack (ack_reply COMMAND_READ_SENSOR_REGISTER)
                   COMMAND_READ_SENSOR_REGISTER)
    by (exists false; vm_compute; reflexivity).
  assert (Hresponse :
            valid_response
              (reply COMMAND_READ_SENSOR_REGISTER [x01; x02; x03; x04; x05])
              COMMAND_READ_SENSOR_REGISTER [x01; x02; x03; x04; x05])
    by (vm_compute; reflexivity).
  split; [exact Hrange|]. split; [reflexivity|].
  split; [exact Hack|]. split; [exact Hresponse|]. split; [reflexivity|].
  exact (proj1 (read_sensor_register_batch_response [0x0220; 0x0222]
                  (mkDevice [] [ack_reply COMMAND_READ_SENSOR_REGISTER;
                                reply COMMAND_READ_SENSOR_REGISTER
                                  [x01; x02; x03; x04; x05]])
                  (ack_reply COMMAND_READ_SENSOR_REGISTER)
                  (reply COMMAND_READ_SENSOR_REGISTER
                     [x01; x02; x03; x04; x05])
                  [x01; x02; x03; x04; x05] []
                  Hrange eq_refl eq_refl Hack Hresponse) eq_refl).
Defined.

(** Counterexample to C8 as stated: with one address, a valid response
    carrying exactly one 2-byte value (2 * n bytes) is rejected. *)
Lemma read_sensor_register_batch_2n_bytes_rejected :
  valid_ack (ack_reply COMMAND_READ_SENSOR_REGISTER)
    COMMAND_READ_SENSOR_REGISTER /\
  valid_response (reply COMMAND_READ_SENSOR_REGISTER [x34; x12])
    COMMAND_READ_SENSOR_REGISTER [x34; x12] /\
  len [x34; x12] = 2 * len [0x0220] /\
  (read_sensor_register (AddressList [0x0220]) 2
     (mkDevice [] [ack_reply COMMAND_READ_SENSOR_REGISTER;
                   reply COMMAND_READ_SENSOR_REGISTER [x34; x12]])).1
    = Raise (SystemError "Invalid response length").
Proof.
  split; [exists false; vm_compute; reflexivity|].
  split; [vm_compute; reflexivity|].
  split; [reflexivity|].
  vm_compute. reflexivity.
Qed.

(** ** Corrupted frames *)

Lemma pack_B_inv (v : Z) (b : bytes) : pack_B v = Ok b -> 0 <= v <= 255.
Proof.
  unfold pack_B.
  destruct (Z.leb_spec 0 v), (Z.leb_spec v 255); simpl; try done; lia.
Qed.

Lemma pack_H_inv (v : Z) (b : bytes) : pack_H v = Ok b -> 0 <= v < 65536.
Proof.
  unfold pack_H.
  destruct (Z.leb_spec 0 v), (Z.ltb_spec v 65536); simpl; try done; lia.
Qed.

Lemma encode_message_pack_inv (data pack : bytes) (flags : Z) :
  encode_message_pack data flags None = Ok pack ->
  len data < 65536 /\ 0 <= flags <= 255.
Proof.
  unfold encode_message_pack.
  destruct (pack_B flags) as [f|] eqn:Hf; [|done]. apply pack_B_inv in Hf.
  rewrite result_bind_Ok.
  destruct (pack_H (len data)) as [l|] eqn:Hl; [|done]. apply pack_H_inv in Hl.
  intros _. lia.
Qed.

Lemma encode_message_protocol_inv
    (data frame : bytes) (command : Z) (checksum : bool) :
  encode_message_protocol data command None checksum = Ok frame ->
  len data + 1 < 65536 /\ 0 <= command <= 255.
Proof.
  unfold encode_message_protocol.
  destruct (pack_B command) as [c|] eqn:Hc; [|done]. apply pack_B_inv in Hc.
  rewrite result_bind_Ok.
  destruct (pack_H (len data + 1)) as [l|] eqn:Hl; [|done].
  apply pack_H_inv in Hl.
  intros _. lia.
Qed.

Lemma sum_insert (data : bytes) (j : nat) (b old : byte) :
  data !! j = Some old ->
  sum (<[j:=b]> data) = sum data - byte_val old + byte_val b.
Proof.
  revert j. induction data as [|d data IH]; intros [|j] Hj; try done.
  - injection Hj as ->.
    change (byte_val b + sum data = byte_val old + sum data
                                    - byte_val old + byte_val b).
    lia.
  - change (byte_val d + sum (<[j:=b]> data)
            = byte_val d + sum data - byte_val old + byte_val b).
    rewrite (IH j Hj). lia.
Qed.

Lemma byte_val_neq (a b : byte) : a <> b -> byte_val a <> byte_val b.
Proof. intros Hne Heq. by apply Hne, byte_val_inj. Qed.

Lemma message_pack_header_corruption
    (data pack : bytes) (flags : Z) (i : nat) (b : byte) :
  encode_message_pack data flags None = Ok pack ->
  (i < 4)%nat -> pack !! i <> Some b ->
  decode_message_pack (<[i:=b]> pack) = Raise (ValueError "Invalid payload").
Proof.
  intros Hencode Hi Hb.
  destruct (encode_message_pack_inv _ _ _ Hencode) as [Hlen Hflags].
  pose proof (len_nonneg data).
  rewrite encode_message_pack_shape in Hencode by done.
  injection Hencode as <-.
  pose proof (byte_val_range b).
  destruct i as [|[|[|[|i]]]]; [| | |  |lia]; simpl in Hb;
    assert (Hne : forall x, Some x <> Some b -> byte_val x <> byte_val b)
      by (intros x Hx; apply byte_val_neq; congruence);
    apply Hne in Hb; rewrite byte_val_of in Hb by lia;
    cbn [insert list_insert]; rewrite decode_message_pack_cons;
    rewrite ?byte_val_of by lia;
    (lazymatch goal with
     | |- context [?x =? ?y] => destruct (Z.eqb_spec x y) as [Heq|_]
     end; [exfalso; lia|reflexivity]).
Qed.

(** Moves a lookup (in [Hb]) and an insertion (in the goal) at offset
    [3 + j] of a frame past its three header bytes. *)
Ltac skip_header j b Hb :=
  lazymatch type of Hb with
  | (?c :: ?l0 :: ?l1 :: ?body) !! _ <> _ =>
      change (body !! j <> Some b) in Hb;
      change (<[S (S (S j)):=b]> (c :: l0 :: l1 :: body))
        with (c :: l0 :: l1 :: <[j:=b]> body)
  end.

Lemma message_protocol_corruption
    (data frame : bytes) (command : Z) (i : nat) (b : byte) :
  encode_message_protocol data command None true = Ok frame ->
  (i = 0 \/ 3 <= i < length frame)%nat -> frame !! i <> Some b ->
  decode_message_protocol (<[i:=b]> frame) true
    = Raise (ValueError "Invalid payload").
Proof.
  intros Hencode Hi Hb.
  destruct (encode_message_protocol_inv _ _ _ _ Hencode) as [Hlen Hcommand].
  pose proof (len_nonneg data).
  rewrite encode_message_protocol_shape in Hencode by done.
  injection Hencode as <-.
  pose proof (byte_val_range b).
  assert (Hne : forall x, Some x <> Some b -> byte_val x <> byte_val b)
    by (intros x Hx; apply byte_val_neq; congruence).
  unfold trailer_of in *.
  destruct i as [|[|[|j]]]; [| lia | lia |].
  - (* the command byte *)
    simpl in Hb. apply Hne in Hb. rewrite byte_val_of in Hb by lia.
    cbn [insert list_insert].
    rewrite decode_message_protocol_cons by (rewrite !byte_val_of; lia).
    rewrite !byte_val_of by lia.
    lazymatch goal with
    | |- context [?x =? ?y] => destruct (Z.eqb_spec x y) as [Heq|_]
    end; [exfalso; lia|reflexivity].
  - destruct Hi as [|[_ Hi]]; [done|].
    cbn [length] in Hi. rewrite length_app in Hi. cbn [length] in Hi.
    skip_header j b Hb.
    destruct (decide (j < length data)%nat) as [Hj|Hj].
    + (* a data byte *)
      rewrite lookup_app_l in Hb by done.
      destruct (lookup_lt_is_Some_2 data j Hj) as [old Hold].
      rewrite Hold in Hb. apply Hne in Hb.
      pose proof (byte_val_range old).
      rewrite insert_app_l by done.
      assert (Hlen' : len (<[j:=b]> data) = len data)
        by (unfold len; by rewrite length_insert).
      rewrite decode_message_protocol_cons
        by (rewrite !byte_val_of, Hlen'; lia).
      rewrite (sum_insert data j b old Hold), !byte_val_of by lia.
      lazymatch goal with
      | |- context [?x =? ?y] => destruct (Z.eqb_spec x y) as [Heq|_]
      end; [exfalso; lia|reflexivity].
    + (* the trailer byte *)
      assert (j = (length data + 0)%nat) as -> by lia.
      rewrite lookup_app_r in Hb by lia.
      replace (length data + 0 - length data)%nat with 0%nat in Hb by lia.
      apply Hne in Hb. rewrite byte_val_of in Hb by lia.
      rewrite insert_app_r. cbn [insert list_insert].
      rewrite decode_message_protocol_cons by (rewrite !byte_val_of; lia).
      rewrite !byte_val_of by lia.
      lazymatch goal with
      | |- context [?x =? ?y] => destruct (Z.eqb_spec x y) as [Heq|_]
      end; [exfalso; lia|reflexivity].
Qed.

Lemma message_protocol_sentinel_corruption
    (data frame : bytes) (command : Z) (i : nat) (b : byte) :
  encode_message_protocol data command None false = Ok frame ->
  i = (length frame - 1)%nat -> frame !! i <> Some b ->
  decode_message_protocol (<[i:=b]> frame) false
    = Raise (ValueError "Invalid payload").
Proof.
  intros Hencode -> Hb.
  destruct (encode_message_protocol_inv _ _ _ _ Hencode) as [Hlen Hcommand].
  pose proof (len_nonneg data).
  rewrite encode_message_protocol_shape in Hencode by done.
  injection Hencode as <-.
  cbn [length] in *. rewrite length_app in *. cbn [length] in *.
  replace (S (S (S (length data + 1))) - 1)%nat
    with (S (S (S (length data + 0)))) in * by lia.
  skip_header (length data + 0)%nat b Hb.
  rewrite lookup_app_r in Hb by lia.
  replace (length data + 0 - length data)%nat with 0%nat in Hb by lia.
  assert (Hne : byte_val (byte_of (trailer_of command data false))
                <> byte_val b)
    by (apply byte_val_neq; intros <-; by apply Hb).
  unfold trailer_of in Hne. rewrite byte_val_of in Hne by lia.
  rewrite insert_app_r. cbn [insert list_insert].
  rewrite decode_message_protocol_cons by (rewrite !byte_val_of; lia).
  destruct (Z.eqb_spec (byte_val b) 136) as [Heq|_]; [exfalso; lia|reflexivity].
Qed.

(** C3 (amended): replacing any one of the four header bytes of an encoded
    message pack (flags, either length byte, checksum) by a different byte
    makes [decode_message_pack] raise [ValueError]; replacing the command
    byte, any data byte or the trailer of a checksummed message-protocol
    frame by a different byte makes [decode_message_protocol] raise
    [ValueError]; and replacing the sentinel trailer of a frame encoded
    without checksum does the same under the no-checksum policy. *)
Theorem frame_corruption_detected (data : bytes) (flags command : Z) :
  (forall (pack : bytes) (i : nat) (b : byte),
     encode_message_pack data flags None = Ok pack ->
     (i < 4)%nat -> pack !! i <> Some b ->
     decode_message_pack (<[i:=b]> pack)
       = Raise (ValueError "Invalid payload")) /\
  (forall (frame : bytes) (i : nat) (b : byte),
     encode_message_protocol data command None true = Ok frame ->
     (i = 0 \/ 3 <= i < length frame)%nat -> frame !! i <> Some b ->
     decode_message_protocol (<[i:=b]> frame) true
       = Raise (ValueError "Invalid payload")) /\
  (forall (frame : bytes) (i : nat) (b : byte),
     encode_message_protocol data command None false = Ok frame ->
     i = (length frame - 1)%nat -> frame !! i <> Some b ->
     decode_message_protocol (<[i:=b]> frame) false
       = Raise (ValueError "Invalid payload")).
Proof.
  split; [|split].
  - intros pack i b. apply message_pack_header_corruption.
  - intros frame i b. apply message_protocol_corruption.
  - intros frame i b. apply message_protocol_sentinel_corruption.
Qed.

Lemma frame_corruption_detected_witness :
  decode_message_pack (<[1%nat:=xff]> [xa0; x02; x00; xa2; x01; x02])
    = Raise (ValueError "Invalid payload") /\
  decode_message_protocol (<[4%nat:=xff]> [x20; x03; x00; x01; x02; x84]) true
    = Raise (ValueError "Invalid payload") /\
  decode_message_protocol (<[5%nat:=xff]> [x20; x03; x00; x01; x02; x88]) false
    = Raise (ValueError "Invalid payload").
Proof.
  split; [|split].
  - apply (proj1 (frame_corruption_detected [x01; x02] 0xa0 0x20)
             [xa0; x02; x00; xa2; x01; x02] 1%nat xff);
      [reflexivity|lia|discriminate].
  - apply (proj1 (proj2 (frame_corruption_detected [x01; x02] 0xa0 0x20))
             [x20; x03; x00; x01; x02; x84] 4%nat xff);
      [reflexivity|simpl; lia|discriminate].
  - apply (proj2 (proj2 (frame_corruption_detected [x01; x02] 0xa0 0x20))
             [x20; x03; x00; x01; x02; x88] 5%nat xff);
      [reflexivity|reflexivity|discriminate].
Defined.

(** Counterexample to C3 as stated: corrupted bytes inside the declared
    extent of a frame that still decode.  A message pack's checksum covers
    its header only, so a changed data byte is returned as data; a changed
    length byte of a message-protocol frame can move the trailer onto a
    data byte that happens to match; and without checksum only the
    sentinel is examined. *)
Lemma frame_corruption_undetected :
  (encode_message_pack [x01; x02] 0xa0 None
     = Ok [xa0; x02; x00; xa2; x01; x02] /\
   decode_message_pack (<[4%nat:=xff]> [xa0; x02; x00; xa2; x01; x02])
     = Ok ([xff; x02], 0xa0, 2)) /\
  (encode_message_protocol [xa9] 0x00 None true
     = Ok [x00; x02; x00; xa9; xff] /\
   decode_message_protocol (<[1%nat:=x01]> [x00; x02; x00; xa9; xff]) true
     = Ok ([], 0x00, 0)) /\
  (encode_message_protocol [x01; x02] 0x20 None false
     = Ok [x20; x03; x00; x01; x02; x88] /\
   decode_message_protocol (<[3%nat:=xff]> [x20; x03; x00; x01; x02; x88]) false
     = Ok ([xff; x02], 0x20, 2)).
Proof. by vm_compute. Qed.

(** * Further properties of the codecs *)

(** ** Checked message packs *)

Lemma check_message_pack_cons (f l0 l1 c : byte) (rest : bytes) (flags : Z) :
  check_message_pack (f :: l0 :: l1 :: c :: rest) flags =
    if negb ((byte_val f + byte_val l0 + byte_val l1) mod 256 =? byte_val c)
    then Raise (ValueError "Invalid payload")
    else if negb (byte_val f =? flags)
              || (len rest <? byte_val l0 + 256 * byte_val l1)
         then Raise (ValueError "Invalid message pack")
         else Ok (take (Z.to_nat (byte_val l0 + 256 * byte_val l1)) rest).
Proof.
  unfold check_message_pack. rewrite decode_message_pack_cons.
  destruct (negb (_ =? byte_val c)); [done|].
  rewrite result_bind_Ok.
  pose proof (byte_val_range l0). pose proof (byte_val_range l1).
  set (n := byte_val l0 + 256 * byte_val l1) in *.
  destruct (negb (byte_val f =? flags)); [done|]. cbn [orb].
  destruct (Z.ltb_spec (len rest) n) as [Hlt|Hge].
  - destruct (Z.ltb_spec (len (take (Z.to_nat n) rest)) n) as [_|Hge];
      [done|].
    unfold len in *. rewrite length_take in Hge. lia.
  - destruct (Z.ltb_spec (len (take (Z.to_nat n) rest)) n) as [Hlt|_];
      [|done].
    unfold len in *. rewrite length_take in Hlt. lia.
Qed.

(** X1: [check_message_pack] accepts exactly the encoded frames, followed
    by any padding: it returns [data] for the expected [flags] if and only
    if the payload is [encode_message_pack data flags] followed by some
    bytes. *)
Theorem check_message_pack_accepts_iff
    (payload data : bytes) (flags : Z) :
  check_message_pack payload flags = Ok data <->
  exists frame pad : bytes,
    encode_message_pack data flags None = Ok frame /\ payload = frame ++ pad.
Proof.
  split.
  - destruct payload as [|f [|l0 [|l1 [|c rest]]]]; try done.
    rewrite check_message_pack_cons.
    pose proof (byte_val_range f). pose proof (byte_val_range l0).
    pose proof (byte_val_range l1). pose proof (byte_val_range c).
    destruct (Z.eqb_spec ((byte_val f + byte_val l0 + byte_val l1) mod 256)
                (byte_val c)) as [Hc|]; [|done].
    destruct (Z.eqb_spec (byte_val f) flags) as [Hf|]; [|done].
    destruct (Z.ltb_spec (len rest) (byte_val l0 + 256 * byte_val l1))
      as [|Hlen]; [done|].
    cbn [negb orb]. intros [= <-].
    set (n := byte_val l0 + 256 * byte_val l1) in *.
    assert (Hn : len (take (Z.to_nat n) rest) = n)
      by (unfold len in *; rewrite length_take; lia).
    exists (f :: l0 :: l1 :: c :: take (Z.to_nat n) rest),
           (drop (Z.to_nat n) rest).
    split.
    + rewrite encode_message_pack_shape by lia. rewrite Hn. subst flags.
      replace (n mod 256) with (byte_val l0) by lia.
      replace (n / 256) with (byte_val l1) by lia.
      rewrite Hc, !byte_of_val. done.
    + simpl. by rewrite take_drop.
  - intros (frame & pad & Hencode & ->).
    destruct (encode_message_pack_inv _ _ _ Hencode) as [Hlen Hflags].
    pose proof (len_nonneg data).
    rewrite encode_message_pack_shape in Hencode by done.
    injection Hencode as <-. cbn [app].
    rewrite check_message_pack_cons, !byte_val_of by lia.
    rewrite !Z.eqb_refl. cbn [negb orb].
    replace (len data mod 256 + 256 * (len data / 256)) with (len data) by lia.
    destruct (Z.ltb_spec (len (data ++ pad)) (len data)) as [Hlt|_].
    + rewrite len_app in Hlt. pose proof (len_nonneg pad). lia.
    + unfold len. by rewrite Nat2Z.id, take_app_length.
Qed.

(** X2: a frame cut short by the transport is refused: every proper prefix
    of an encoded message pack that still holds the 4 header bytes makes
    [check_message_pack] raise [ValueError] (invalid message pack), and
    decoding alone returns the shortened data with the declared length. *)
Theorem check_message_pack_truncated
    (data frame : bytes) (flags : Z) (n : nat) :
  encode_message_pack data flags None = Ok frame ->
  (4 <= n < length frame)%nat ->
  check_message_pack (take n frame) flags
    = Raise (ValueError "Invalid message pack") /\
  decode_message_pack (take n frame)
    = Ok (take (n - 4) data, flags, len data).
Proof.
  intros Hencode Hn.
  destruct (encode_message_pack_inv _ _ _ Hencode) as [Hlen Hflags].
  pose proof (len_nonneg data).
  rewrite encode_message_pack_shape in Hencode by done.
  injection Hencode as <-. cbn [length] in Hn.
  destruct n as [|[|[|[|n]]]]; try lia.
  rewrite !firstn_cons.
  replace (S (S (S (S n))) - 4)%nat with n by lia.
  assert (Htake : take (Z.to_nat (len data)) (take n data) = take n data)
    by (apply take_ge; rewrite length_take; unfold len; lia).
  split.
  - rewrite check_message_pack_cons, !byte_val_of by lia.
    rewrite !Z.eqb_refl. cbn [negb orb].
    replace (len data mod 256 + 256 * (len data / 256)) with (len data) by lia.
    destruct (Z.ltb_spec (len (take n data)) (len data)) as [_|Hge]; [done|].
    unfold len in Hge. rewrite length_take in Hge. lia.
  - rewrite decode_message_pack_cons, !byte_val_of by lia.
    rewrite Z.eqb_refl. cbn [negb].
    replace (len data mod 256 + 256 * (len data / 256)) with (len data) by lia.
    by rewrite Htake.
Qed.

(** X3: [decode_message_pack] needs its 4 header bytes: on fewer than 3
    bytes the length field cannot be unpacked ([struct.error]) and on
    exactly 3 bytes the checksum byte is missing ([IndexError]). *)
Theorem decode_message_pack_short (payload : bytes) :
  (len payload < 3 -> decode_message_pack payload = Raise StructError) /\
  (len payload = 3 -> decode_message_pack payload = Raise IndexError).
Proof.
  unfold len.
  destruct payload as [|f [|l0 [|l1 [|c rest]]]]; simpl length;
    split; intros Hlen; try lia; reflexivity.
Qed.

(** ** Checked message-protocol frames *)

Lemma check_message_protocol_cons
    (c l0 l1 t : byte) (data pad : bytes) (command : Z) (checksum : bool) :
  byte_val l0 + 256 * byte_val l1 = len data + 1 ->
  check_message_protocol (c :: l0 :: l1 :: data ++ t :: pad) command checksum =
    if (if checksum
        then negb (byte_val t =?
                   (0xaa - (byte_val c + byte_val l0 + byte_val l1 + sum data))
                   mod 256)
        else negb (byte_val t =? 0x88))
    then Raise (ValueError "Invalid payload")
    else if negb (byte_val c =? command)
         then Raise (ValueError "Invalid message protocol")
         else Ok data.
Proof.
  intros Hlen. unfold check_message_protocol.
  rewrite decode_message_protocol_cons by done.
  destruct (if checksum then _ else _); [done|].
  rewrite result_bind_Ok.
  destruct (negb (byte_val c =? command)); [done|]. cbn [orb].
  by rewrite Z.ltb_irrefl.
Qed.

Lemma check_message_protocol_encoded
    (data pad : bytes) (command expected : Z) (useChecksum : bool) :
  len data + 1 < 65536 -> 0 <= command <= 255 ->
  check_message_protocol
    (byte_of command :: byte_of ((len data + 1) mod 256)
     :: byte_of ((len data + 1) / 256)
     :: data ++ byte_of (trailer_of command data useChecksum) :: pad)
    expected useChecksum =
    if expected =? command
    then Ok data
    else Raise (ValueError "Invalid message protocol").
Proof.
  intros Hlen Hcommand. pose proof (len_nonneg data).
  rewrite check_message_protocol_cons by (rewrite !byte_val_of; lia).
  rewrite !byte_val_of by (unfold trailer_of; destruct useChecksum; lia).
  rewrite (Z.eqb_sym expected command).
  unfold trailer_of. destruct useChecksum; rewrite Z.eqb_refl; cbn [negb];
    by destruct (command =? expected).
Qed.

(** X4: [check_message_protocol] gives back the data of an encoded frame,
    whatever padding follows it, when the expected command is the frame's
    command, under either checksum policy; for any other expected command
    it raises [ValueError] (invalid message protocol). *)
Theorem check_message_protocol_padded
    (data pad : bytes) (command expected : Z) (useChecksum : bool) :
  len data + 1 < 2 ^ 16 -> 0 <= command <= 255 ->
  exists frame : bytes,
    encode_message_protocol data command None useChecksum = Ok frame /\
    check_message_protocol (frame ++ pad) expected useChecksum =
      if expected =? command
      then Ok data
      else Raise (ValueError "Invalid message protocol").
Proof.
  intros Hlen Hcommand. change (2 ^ 16) with 65536 in Hlen.
  eexists. split; [by apply encode_message_protocol_shape|].
  cbn [app]. rewrite <- app_assoc. cbn [app].
  by apply check_message_protocol_encoded.
Qed.

(** X5: the two trailer rules are not interchangeable: a frame encoded
    under one checksum policy decodes under the other policy exactly when
    its computed checksum happens to be the sentinel 0x88, and raises
    [ValueError] (invalid payload) otherwise. *)
Theorem message_protocol_cross_policy
    (data : bytes) (command : Z) (useChecksum : bool) :
  len data + 1 < 2 ^ 16 -> 0 <= command <= 255 ->
  exists frame : bytes,
    encode_message_protocol data command None useChecksum = Ok frame /\
    decode_message_protocol frame (negb useChecksum) =
      if trailer_of command data true =? 0x88
      then Ok (data, command, len data)
      else Raise (ValueError "Invalid payload").
Proof.
  intros Hlen Hcommand. change (2 ^ 16) with 65536 in Hlen.
  pose proof (len_nonneg data).
  eexists. split; [by apply encode_message_protocol_shape|].
  rewrite decode_message_protocol_cons by (rewrite !byte_val_of; lia).
  rewrite !byte_val_of by (unfold trailer_of; destruct useChecksum; lia).
  unfold trailer_of. destruct useChecksum; cbn [negb].
  - by destruct (_ =? 136).
  - rewrite (Z.eqb_sym 136). by destruct (_ =? 136).
Qed.

Lemma decode_message_protocol_zero_length
    (c l0 l1 : byte) (body : bytes) (checksum : bool) :
  byte_val l0 + 256 * byte_val l1 = 0 ->
  decode_message_protocol (c :: l0 :: l1 :: body) checksum =
    if checksum && (byte_val c =? 0xaa)
    then Ok ([], byte_val c, -1)
    else Raise (ValueError "Invalid payload").
Proof.
  intros Hzero.
  pose proof (byte_val_range l0). pose proof (byte_val_range l1).
  pose proof (byte_val_range c).
  assert (Hl0 : byte_val l0 = 0) by lia. assert (Hl1 : byte_val l1 = 0) by lia.
  unfold decode_message_protocol.
  replace (slice (c :: l0 :: l1 :: body) 1 3) with [l0; l1] by done.
  cbn [unpack_H]. rewrite result_bind_Ok. cbn [item0]. rewrite Hzero.
  change (index (c :: l0 :: l1 :: body) (2 + 0)) with (Ok (byte_val l1)).
  change (slice (c :: l0 :: l1 :: body) 0 (2 + 0)) with [c; l0].
  change (slice (c :: l0 :: l1 :: body) 3 (2 + 0)) with (@nil byte).
  change (index (c :: l0 :: l1 :: body) 0) with (Ok (byte_val c)).
  change (sum [c; l0]) with (byte_val c + (byte_val l0 + 0)).
  rewrite !result_bind_Ok, land_0xff, Hl0, Hl1.
  destruct checksum; cbn [andb]; [|done].
  destruct (Z.eqb_spec (byte_val c) 170) as [->|Hne]; [done|].
  destruct (Z.eqb_spec 0 ((170 - (byte_val c + (0 + 0))) mod 256)); [lia|done].
Qed.

(** X6: [check_message_protocol] accepts the encoded frames followed by any
    padding and, under the checksum policy only, one more shape: a payload
    that starts with [aa 00 00], whose declared length 0 makes the high
    length byte serve as trailer, is accepted for command 0xaa with empty
    data.  Nothing else is accepted. *)
Theorem check_message_protocol_accepts_iff
    (payload data : bytes) (command : Z) (useChecksum : bool) :
  check_message_protocol payload command useChecksum = Ok data <->
  (exists frame pad : bytes,
     encode_message_protocol data command None useChecksum = Ok frame /\
     payload = frame ++ pad) \/
  (useChecksum = true /\ command = 0xaa /\ data = [] /\
   exists rest : bytes, payload = xaa :: x00 :: x00 :: rest).
Proof.
  split.
  - destruct payload as [|c [|l0 [|l1 body]]]; try done.
    pose proof (byte_val_range c). pose proof (byte_val_range l0).
    pose proof (byte_val_range l1).
    destruct (decide (byte_val l0 + 256 * byte_val l1 = 0)) as [Hzero|Hpos].
    + (* declared length 0 *)
      unfold check_message_protocol.
      rewrite decode_message_protocol_zero_length by done.
      destruct useChecksum; [|done]. cbn [andb].
      destruct (Z.eqb_spec (byte_val c) 170) as [Hc|]; [|done].
      rewrite result_bind_Ok.
      destruct (Z.eqb_spec (byte_val c) command) as [Hcommand|]; [|done].
      cbn [negb orb]. change (len [] <? -1) with false. intros [= <-].
      right. repeat split; [lia|].
      exists body. f_equal; [|f_equal; [|f_equal]]; apply byte_val_inj.
      * by rewrite Hc.
      * change (byte_val x00) with 0. lia.
      * change (byte_val x00) with 0. lia.
    + (* declared length at least 1 *)
      set (L := byte_val l0 + 256 * byte_val l1) in *.
      destruct (body !! Z.to_nat (L - 1)) as [t|] eqn:Hlookup.
      * pose proof (lookup_lt_Some _ _ _ Hlookup) as Hlt.
        pose proof (byte_val_range t).
        rewrite <- (take_drop_middle body _ t Hlookup).
        set (data' := take (Z.to_nat (L - 1)) body).
        assert (Hdata' : len data' + 1 = L)
          by (unfold data', len; rewrite length_take; lia).
        rewrite check_message_protocol_cons by (fold L; lia).
        intros Hcheck. left.
        exists (c :: l0 :: l1 :: data' ++ [t]),
               (drop (S (Z.to_nat (L - 1))) body).
        split; [|by rewrite <- !app_comm_cons, <- app_assoc].
        destruct (Z.eqb_spec (byte_val c) command) as [Hcommand|];
          [|by destruct (if useChecksum then _ else _)].
        cbn [negb] in Hcheck.
        assert (Htrailer :
                  byte_val t = trailer_of command data' useChecksum /\
                  data' = data).
        { unfold trailer_of. rewrite Hdata', <- Hcommand.
          replace (L mod 256) with (byte_val l0) by lia.
          replace (L / 256) with (byte_val l1) by lia.
          destruct useChecksum.
          - destruct (Z.eqb_spec (byte_val t)
                        ((170 - (byte_val c + byte_val l0 + byte_val l1
                                 + sum data')) mod 256)); [|done].
            cbn [negb] in Hcheck. by injection Hcheck.
          - destruct (Z.eqb_spec (byte_val t) 136); [|done].
            cbn [negb] in Hcheck. by injection Hcheck. }
        destruct Htrailer as [Htrailer <-].
        rewrite encode_message_protocol_shape by lia.
        rewrite <- Htrailer, Hdata', <- Hcommand.
        replace (L mod 256) with (byte_val l0) by lia.
        replace (L / 256) with (byte_val l1) by lia.
        by rewrite !byte_of_val.
      * (* the trailer position is past the end *)
        unfold check_message_protocol, decode_message_protocol.
        replace (slice (c :: l0 :: l1 :: body) 1 3) with [l0; l1] by done.
        cbn [unpack_H]. rewrite result_bind_Ok. cbn [item0]. fold L.
        assert (Hidx : index (c :: l0 :: l1 :: body) (2 + L) = Raise IndexError).
        { unfold index.
          replace (Z.to_nat (2 + L)) with (S (S (S (Z.to_nat (L - 1))))) by lia.
          change ((c :: l0 :: l1 :: body) !! S (S (S (Z.to_nat (L - 1)))))
            with (body !! Z.to_nat (L - 1)).
          by rewrite Hlookup. }
        rewrite Hidx. by destruct useChecksum.
  - intros [(frame & pad & Hencode & ->)|(-> & -> & -> & rest & ->)].
    + destruct (encode_message_protocol_inv _ _ _ _ Hencode)
        as [Hlen Hcommand].
      rewrite encode_message_protocol_shape in Hencode by done.
      injection Hencode as <-.
      cbn [app]. rewrite <- app_assoc. cbn [app].
      rewrite check_message_protocol_encoded by done.
      by rewrite Z.eqb_refl.
    + unfold check_message_protocol.
      by rewrite decode_message_protocol_zero_length.
Qed.

(** X7: the bytes of a frame encoded with a checksum, trailer included,
    sum to 0xaa modulo 256. *)
Theorem message_protocol_checksum_sum (data frame : bytes) (command : Z) :
  encode_message_protocol data command None true = Ok frame ->
  Z.land (sum frame) 0xff = 0xaa.
Proof.
  intros Hencode.
  destruct (encode_message_protocol_inv _ _ _ _ Hencode) as [Hlen Hcommand].
  pose proof (len_nonneg data).
  rewrite encode_message_protocol_shape in Hencode by done.
  injection Hencode as <-.
  assert (Hcons : forall b l, sum (b :: l) = byte_val b + sum l) by done.
  rewrite !Hcons, sum_app, Hcons, land_0xff.
  change (sum []) with 0.
  rewrite !byte_val_of by lia. lia.
Qed.

(** ** Command identifiers, acks and sub-codecs *)

Lemma encode_decode_command_table :
  forallb (fun id =>
    negb (Z.testbit id 0) ||
    match decode_command id with
    | Raise (ValueError _) => true
    | _ => false
    end) (seqZ 0 256)
  && forallb (fun id =>
    Z.testbit id 0 ||
    match decode_command id with
    | Ok (cmd0, cmd1) =>
        (0 <=? cmd0) && (cmd0 <=? 15) && (0 <=? cmd1) && (cmd1 <=? 7)
        && (encode_command cmd0 cmd1 =? id)
    | Raise _ => false
    end) (seqZ 0 256) = true.
Proof. by vm_compute. Qed.

(** X8: every 8-bit identifier with bit 0 clear decodes to sub-fields
    [cmd0] in [0, 15] and [cmd1] in [0, 7] that encode back to the same
    identifier. *)
Theorem encode_decode_command (id : Z) :
  0 <= id <= 255 -> Z.testbit id 0 = false ->
  exists cmd0 cmd1 : Z,
    decode_command id = Ok (cmd0, cmd1) /\
    0 <= cmd0 <= 15 /\ 0 <= cmd1 <= 7 /\
    encode_command cmd0 cmd1 = id.
Proof.
  intros Hid Hbit.
  pose proof encode_decode_command_table as Htable.
  apply andb_prop in Htable as [_ Htable].
  rewrite forallb_forall in Htable.
  specialize (Htable id ltac:(apply list_elem_of_In, elem_of_seqZ; lia)).
  rewrite Hbit in Htable. cbn [orb] in Htable.
  destruct (decode_command id) as [[cmd0 cmd1]|]; [|done].
  exists cmd0, cmd1. split; [done|].
  repeat (apply andb_prop in Htable as [Htable ?]).
  lia.
Qed.

Lemma ack_flag_bits_table :
  forallb (fun f =>
    Bool.eqb (Z.land f 0x1 =? 0) (negb (Z.testbit f 0))
    && Bool.eqb (Z.land f 0x2 =? 0x2) (Z.testbit f 1)) (seqZ 0 256) = true.
Proof. by vm_compute. Qed.

(** X9: ack gating.  An ack record shorter than 2 bytes raises
    [IndexError]; otherwise the validity bit is examined first (unset:
    [ValueError], invalid payload), then the acked command (different from
    the expected one: [ValueError], invalid ack, even though the validity
    bit is set); on success the result is bit 1 of the flags byte, and any
    further bytes are ignored. *)
Theorem check_ack_gating (command : Z) :
  (forall payload : bytes,
     len payload < 2 -> check_ack payload command = Raise IndexError) /\
  (forall (acked flags : byte) (rest : bytes),
     check_ack (acked :: flags :: rest) command =
       if negb (Z.testbit (byte_val flags) 0)
       then Raise (ValueError "Invalid payload")
       else if byte_val acked =? command
            then Ok (Z.testbit (byte_val flags) 1)
            else Raise (ValueError "Invalid ack")).
Proof.
  split.
  - intros payload Hlen. unfold len in Hlen.
    destruct payload as [|a [|f rest]]; [done|done|simpl in Hlen; lia].
  - intros acked flags rest.
    pose proof ack_flag_bits_table as Htable.
    rewrite forallb_forall in Htable.
    pose proof (byte_val_range flags) as Hflags.
    specialize (Htable (byte_val flags)
                  ltac:(apply list_elem_of_In, elem_of_seqZ; lia)).
    apply andb_prop in Htable as [H0 H1].
    apply Bool.eqb_prop in H0, H1.
    unfold check_ack, decode_ack.
    change (index (acked :: flags :: rest) 1) with (Ok (byte_val flags)).
    change (index (acked :: flags :: rest) 0) with (Ok (byte_val acked)).
    rewrite result_bind_Ok, H0.
    destruct (negb (Z.testbit (byte_val flags) 0)); [done|].
    rewrite !result_bind_Ok. cbn [fst snd]. rewrite H1.
    by destruct (byte_val acked =? command).
Qed.

(** X10: explicit [length] argument of [encode_message_pack].  The header
    declares that length whatever the data holds; decoding returns the
    first [length] bytes of the data, and [check_message_pack] refuses the
    frame as incomplete when the data is shorter than declared. *)
Theorem encode_message_pack_declared_length
    (data : bytes) (flags length : Z) :
  0 <= length < 2 ^ 16 -> 0 <= flags <= 255 ->
  exists frame : bytes,
    encode_message_pack data flags (Some length) = Ok frame /\
    decode_message_pack frame
      = Ok (take (Z.to_nat length) data, flags, length) /\
    check_message_pack frame flags =
      if len data <? length
      then Raise (ValueError "Invalid message pack")
      else Ok (take (Z.to_nat length) data).
Proof.
  intros Hlength Hflags. change (2 ^ 16) with 65536 in Hlength.
  exists (byte_of flags :: byte_of (length mod 256) :: byte_of (length / 256)
          :: byte_of ((flags + length mod 256 + length / 256) mod 256)
          :: data).
  split; [|split].
  - unfold encode_message_pack.
    rewrite pack_B_ok, result_bind_Ok by done.
    rewrite pack_H_ok, result_bind_Ok by lia.
    cbn [app]. rewrite land_0xff.
    assert (Hcons : forall b l, sum (b :: l) = byte_val b + sum l) by done.
    rewrite !Hcons. change (sum []) with 0.
    rewrite !byte_val_of by lia.
    rewrite pack_B_ok, result_bind_Ok by lia.
    cbn [app]. do 6 f_equal. lia.
  - rewrite decode_message_pack_cons, !byte_val_of by lia.
    rewrite Z.eqb_refl. cbn [negb].
    by replace (length mod 256 + 256 * (length / 256)) with length by lia.
  - rewrite check_message_pack_cons, !byte_val_of by lia.
    rewrite !Z.eqb_refl. cbn [negb orb].
    by replace (length mod 256 + 256 * (length / 256)) with length by lia.
Qed.

(** X11: a request can be framed twice exactly when its command is a byte
    and its data leaves room for the 4 bytes the inner frame adds to the
    16-bit length of the outer one; the result is then 8 bytes longer than
    the data, and otherwise [struct.error] is raised. *)
Theorem request_framing (data : bytes) (command : Z) (useChecksum : bool) :
  (0 <= command <= 255 /\ len data + 4 < 2 ^ 16 ->
   exists pack : bytes,
     (protocol ← encode_message_protocol data command None useChecksum;
      encode_message_pack protocol FLAGS_MESSAGE_PROTOCOL None) = Ok pack /\
     len pack = len data + 8) /\
  (~ (0 <= command <= 255 /\ len data + 4 < 2 ^ 16) ->
   (protocol ← encode_message_protocol data command None useChecksum;
    encode_message_pack protocol FLAGS_MESSAGE_PROTOCOL None)
     = Raise StructError).
Proof.
  change (2 ^ 16) with 65536. pose proof (len_nonneg data). split.
  - intros [Hcommand Hlen].
    rewrite encode_message_protocol_shape, result_bind_Ok by lia.
    assert (Hframe :
              len (byte_of command :: byte_of ((len data + 1) mod 256)
                   :: byte_of ((len data + 1) / 256)
                   :: data ++ [byte_of (trailer_of command data useChecksum)])
              = len data + 4)
      by (unfold len; cbn [length]; rewrite length_app; cbn [length]; lia).
    rewrite encode_message_pack_shape by (rewrite ?Hframe; done || lia).
    eexists. split; [reflexivity|].
    unfold len in *. cbn [length] in *. lia.
  - intros Hnot.
    destruct (decide (0 <= command <= 255)) as [Hcommand|Hcommand].
    + destruct (decide (len data + 1 < 65536)) as [Hlen|Hlen].
      * rewrite encode_message_protocol_shape, result_bind_Ok by lia.
        unfold encode_message_pack.
        rewrite pack_B_ok, result_bind_Ok by done.
        unfold pack_H.
        destruct (Z.ltb_spec
                    (len (byte_of command :: byte_of ((len data + 1) mod 256)
                          :: byte_of ((len data + 1) / 256)
                          :: data
                             ++ [byte_of (trailer_of command data useChecksum)]))
                    65536) as [Hlt|_].
        -- unfold len in *. cbn [length] in Hlt. rewrite length_app in Hlt.
           cbn [length] in Hlt. lia.
        -- by rewrite andb_false_r.
      * unfold encode_message_protocol.
        rewrite pack_B_ok, result_bind_Ok by done.
        unfold pack_H.
        destruct (Z.ltb_spec (len data + 1) 65536); [lia|].
        by rewrite andb_false_r.
    + unfold encode_message_protocol, pack_B.
      destruct (Z.leb_spec 0 command), (Z.leb_spec command 255);
        try lia; done.
Qed.

(** X12: [decode_mcu_state] returns for no payload at all: it raises
    [IndexError] when the payload has fewer than 10 bytes and
    [struct.error] otherwise. *)
Theorem decode_mcu_state_never_returns (payload : bytes) :
  decode_mcu_state payload =
    if len payload <? 10 then Raise IndexError else Raise StructError.
Proof.
  unfold len.
  do 10 (destruct payload as [|? payload]; [reflexivity|]).
  destruct (Z.ltb_spec
              (Z.of_nat (length (b :: b0 :: b1 :: b2 :: b3 :: b4 :: b5
                                 :: b6 :: b7 :: b8 :: payload))) 10)
    as [Hlt|_]; [simpl in Hlt; lia|].
  by destruct payload as [|? [|? ?]].
Qed.

Lemma for_each_chunks_partial
    (body : list Z -> Z -> result (list Z)) (payload : bytes) (n : nat) :
  (forall image i c0 c1 c2 c3 c4 c5,
     slice payload i (i + 6) = [c0; c1; c2; c3; c4; c5] ->
     body image i = Ok (image ++ chunk_samples c0 c1 c2 c3 c4 c5)) ->
  (forall image i,
     (0 < length (slice payload i (i + 6)) < 6)%nat ->
     body image i = Raise IndexError) ->
  forall (pre rest : bytes) (acc : list Z) (j : Z),
    payload = pre ++ rest -> 0 <= j -> len pre = 6 * j ->
    (6 * n < length rest < 6 * n + 6)%nat ->
    for_each ((fun k => 0 + 6 * k) <$> seqZ j (Z.of_nat (S n))) body acc
      = Raise IndexError.
Proof.
  intros Hwhole Hpartial.
  induction n as [|n IH]; intros pre rest acc j -> Hj Hpre Hrest.
  - change (seqZ j (Z.of_nat 1)) with [j]. cbn [fmap list_fmap for_each].
    rewrite Hpartial; [done|].
    unfold slice, len in *.
    replace (Z.to_nat (0 + 6 * j)) with (length pre) by lia.
    replace (Z.to_nat (0 + 6 * j + 6) - length pre)%nat with 6%nat by lia.
    rewrite drop_app_length, length_take. lia.
  - destruct rest as [|c0 [|c1 [|c2 [|c3 [|c4 [|c5 rest]]]]]];
      try (simpl in Hrest; lia).
    rewrite seqZ_cons by lia. rewrite fmap_cons. cbn [for_each].
    rewrite (Hwhole acc (0 + 6 * j) c0 c1 c2 c3 c4 c5).
    + rewrite result_bind_Ok.
      replace (Z.pred (Z.of_nat (S (S n)))) with (Z.of_nat (S n)) by lia.
      apply (IH (pre ++ [c0; c1; c2; c3; c4; c5]) rest _ (Z.succ j)).
      * by rewrite <- app_assoc.
      * lia.
      * rewrite len_app. unfold len in *. simpl. lia.
      * simpl in Hrest. lia.
    + unfold slice, len in *.
      replace (Z.to_nat (0 + 6 * j)) with (length pre) by lia.
      replace (Z.to_nat (0 + 6 * j + 6) - length pre)%nat with 6%nat by lia.
      by rewrite drop_app_length.
Qed.

(** X13: a payload whose length is not a multiple of 6 makes [decode_image]
    raise [IndexError] on its last, incomplete chunk: the samples of the
    whole chunks before it are not returned. *)
Theorem decode_image_incomplete_chunk (payload : bytes) :
  len payload mod 6 <> 0 -> decode_image payload = Raise IndexError.
Proof.
  intros Hmod. pose proof (len_nonneg payload) as Hnonneg.
  unfold decode_image, range.
  replace ((len payload - 0 + 6 - 1) / 6)
    with (Z.of_nat (S (Z.to_nat (len payload / 6)))) by lia.
  apply (for_each_chunks_partial _ payload _) with (pre := []) (rest := payload).
  - intros image i c0 c1 c2 c3 c4 c5 ->. simpl.
    unfold chunk_samples. rewrite <- !app_assoc. done.
  - intros image i Hchunk. cbv zeta.
    destruct (slice payload i (i + 6))
      as [|c0 [|c1 [|c2 [|c3 [|c4 [|c5 rest]]]]]];
      try reflexivity; simpl in Hchunk; lia.
  - done.
  - done.
  - done.
  - unfold len in *. lia.
Qed.

(** * Further properties of the transport and of the exchanges *)

(** ** Writing in 64-byte chunks *)

Lemma Device_write_chunks_of (payload : bytes) (dev : Device) :
  Device_write payload dev
    = (Ok (), mkDevice (written dev ++ chunks_of payload) (incoming dev)).
Proof. unfold Device_write, chunks_of. apply for_each_M_usb_write. Qed.

Lemma slices_of_whole_chunks (padded : bytes) (m : nat) :
  forall (pre rest : bytes) (j : Z),
    padded = pre ++ rest -> 0 <= j -> len pre = 64 * j ->
    length rest = (64 * m)%nat ->
    concat ((fun i => slice padded i (i + 64))
              <$> ((fun k => 0 + 64 * k) <$> seqZ j (Z.of_nat m))) = rest /\
    Forall (fun chunk : bytes => len chunk = 64)
      ((fun i => slice padded i (i + 64))
         <$> ((fun k => 0 + 64 * k) <$> seqZ j (Z.of_nat m))).
Proof.
  induction m as [|m IH]; intros pre rest j -> Hj Hpre Hrest.
  - destruct rest; [|done]. split; [done|constructor].
  - rewrite seqZ_cons by lia. rewrite !fmap_cons.
    replace (Z.pred (Z.of_nat (S m))) with (Z.of_nat m) by lia.
    assert (Hslice : slice (pre ++ rest) (0 + 64 * j) (0 + 64 * j + 64)
                     = take 64 rest).
    { unfold slice, len in *.
      replace (Z.to_nat (0 + 64 * j)) with (length pre) by lia.
      replace (Z.to_nat (0 + 64 * j + 64) - length pre)%nat with 64%nat by lia.
      by rewrite drop_app_length. }
    rewrite Hslice.
    destruct (IH (pre ++ take 64 rest) (drop 64 rest) (Z.succ j))
      as [Hconcat Hall].
    + by rewrite <- app_assoc, take_drop.
    + lia.
    + rewrite len_app. unfold len in *. rewrite length_take. lia.
    + rewrite length_drop. lia.
    + split.
      * cbn [concat]. rewrite Hconcat. apply take_drop.
      * constructor; [|done]. unfold len. rewrite length_take. lia.
Qed.

Lemma chunks_of_spec (payload : bytes) :
  concat (chunks_of payload)
    = payload ++ replicate (Z.to_nat ((- len payload) mod 64)) x00 /\
  Forall (fun chunk : bytes => len chunk = 64) (chunks_of payload) /\
  len (chunks_of payload) = (len payload + 63) / 64.
Proof.
  pose proof (len_nonneg payload) as Hnonneg.
  unfold chunks_of, range.
  set (padded := if negb (len payload mod 64 =? 0)
                 then payload
                      ++ replicate (Z.to_nat (64 - len payload mod 64)) x00
                 else payload).
  assert (Hpadded :
            padded = payload
                     ++ replicate (Z.to_nat ((- len payload) mod 64)) x00).
  { unfold padded.
    destruct (Z.eqb_spec (len payload mod 64) 0) as [Hzero|Hrem]; cbn [negb].
    - replace ((- len payload) mod 64) with 0 by lia.
      by rewrite app_nil_r.
    - by replace ((- len payload) mod 64) with (64 - len payload mod 64)
        by lia. }
  replace ((len payload - 0 + 64 - 1) / 64)
    with (Z.of_nat (Z.to_nat ((len payload + 63) / 64))) by lia.
  destruct (slices_of_whole_chunks padded
              (Z.to_nat ((len payload + 63) / 64)) [] padded 0)
    as [Hconcat Hall]; [done|done|done| |].
  - rewrite Hpadded, length_app, length_replicate. unfold len in *. lia.
  - split; [by rewrite Hconcat|]. split; [done|].
    unfold len. rewrite !length_fmap, length_seqZ. lia.
Qed.


Lemma check_message_pack_encoded (data pad : bytes) (flags : Z) :
  len data < 65536 -> 0 <= flags <= 255 ->
  check_message_pack
    (byte_of flags :: byte_of (len data mod 256) :: byte_of (len data / 256)
     :: byte_of ((flags + len data mod 256 + len data / 256) mod 256)
     :: data ++ pad) flags = Ok data.
Proof.
  intros Hlen Hflags. pose proof (len_nonneg data).
  rewrite check_message_pack_cons, !byte_val_of by lia.
  rewrite !Z.eqb_refl. cbn [negb orb].
  replace (len data mod 256 + 256 * (len data / 256)) with (len data) by lia.
  destruct (Z.ltb_spec (len (data ++ pad)) (len data)) as [Hlt|_].
  - rewrite len_app in Hlt. pose proof (len_nonneg pad). lia.
  - unfold len. by rewrite Nat2Z.id, take_app_length.
Qed.

(** X15: what an exchange writes is what it meant to send: for every
    request that can be framed, the chunks that [Device.write] hands over,
    put together, pass [check_message_pack] and [check_message_protocol]
    for the command and policy of the request and give back its data, the
    zero padding of the last chunk being ignored. *)
Theorem written_request_decodes
    (data : bytes) (command : Z) (useChecksum : bool) (dev : Device) :
  0 <= command <= 255 -> len data + 4 < 2 ^ 16 ->
  exists (pack : bytes) (chunks : list bytes),
    (protocol ← encode_message_protocol data command None useChecksum;
     encode_message_pack protocol FLAGS_MESSAGE_PROTOCOL None) = Ok pack /\
    Device_write pack dev
      = (Ok (), mkDevice (written dev ++ chunks) (incoming dev)) /\
    (pack ← check_message_pack (concat chunks) FLAGS_MESSAGE_PROTOCOL;
     check_message_protocol pack command useChecksum) = Ok data.
Proof.
  intros Hcommand Hlen. change (2 ^ 16) with 65536 in Hlen.
  pose proof (len_nonneg data).
  rewrite encode_message_protocol_shape, result_bind_Ok by lia.
  set (protocol := byte_of command :: byte_of ((len data + 1) mod 256)
                   :: byte_of ((len data + 1) / 256)
                   :: data ++ [byte_of (trailer_of command data useChecksum)]).
  assert (Hprotocol : len protocol = len data + 4)
    by (unfold protocol, len; cbn [length]; rewrite length_app;
        cbn [length]; lia).
  rewrite encode_message_pack_shape by (rewrite ?Hprotocol; done || lia).
  eexists. exists (chunks_of
                     (byte_of FLAGS_MESSAGE_PROTOCOL
                      :: byte_of (len protocol mod 256)
                      :: byte_of (len protocol / 256)
                      :: byte_of ((FLAGS_MESSAGE_PROTOCOL
                                   + len protocol mod 256
                                   + len protocol / 256) mod 256)
                      :: protocol)).
  split; [reflexivity|]. split; [apply Device_write_chunks_of|].
  destruct (chunks_of_spec
              (byte_of FLAGS_MESSAGE_PROTOCOL
               :: byte_of (len protocol mod 256)
               :: byte_of (len protocol / 256)
               :: byte_of ((FLAGS_MESSAGE_PROTOCOL + len protocol mod 256
                            + len protocol / 256) mod 256)
               :: protocol)) as (-> & _ & _).
  cbn [app].
  rewrite check_message_pack_encoded
    by (rewrite ?Hprotocol; unfold FLAGS_MESSAGE_PROTOCOL; lia).
  rewrite result_bind_Ok.
  replace protocol
    with (byte_of command :: byte_of ((len data + 1) mod 256)
          :: byte_of ((len data + 1) / 256)
          :: data ++ byte_of (trailer_of command data useChecksum) :: [])
    by done.
  rewrite check_message_protocol_encoded by lia.
  by rewrite Z.eqb_refl.
Qed.

(** ** Draining the reply buffer *)

Lemma read_forever_drains (fuel : nat) :
  forall dev : Device,
    (length (incoming dev) < fuel)%nat ->
    read_forever fuel dev
      = Some (USBTimeoutError (-7), mkDevice (written dev) []).
Proof.
  induction fuel as [|fuel IH]; intros [out pending] Hfuel; [simpl in *; lia|].
  destruct pending as [|buffer pending].
  - reflexivity.
  - cbn [read_forever Device_read usb_read incoming written].
    rewrite IH; [done|]. simpl in *. lia.
Qed.

(** X16: [empty_buffer] discards every pending buffer and then returns
    normally: the timeout that ends its loop is absorbed, nothing is
    written, and the device is left with no pending input. *)
Theorem empty_buffer_drains (fuel : nat) (dev : Device) :
  (length (incoming dev) < fuel)%nat ->
  empty_buffer fuel dev = Some (Ok (), mkDevice (written dev) []).
Proof.
  intros Hfuel. unfold empty_buffer. by rewrite read_forever_drains.
Qed.

(** ** The request and ack steps of an exchange *)

Lemma request_frame_encoded
    (command : Z) (request : bytes) (checksum : bool) :
  len request + 4 < 65536 -> 0 <= command <= 255 ->
  exists protocol : bytes,
    encode_message_protocol request command None checksum = Ok protocol /\
    encode_message_pack protocol FLAGS_MESSAGE_PROTOCOL None
      = Ok (request_frame command request checksum).
Proof.
  intros Hlen Hcommand. pose proof (len_nonneg request).
  unfold request_frame.
  rewrite encode_message_protocol_shape by lia.
  eexists. split; [reflexivity|]. rewrite result_bind_Ok.
  rewrite encode_message_pack_shape; [done| |done].
  unfold len in *. cbn [length]. rewrite length_app. cbn [length]. lia.
Qed.

Lemma request_sent {A : Type}
    (command : Z) (request : bytes) (checksum : bool) (k : M A)
    (dev : Device) :
  len request + 4 < 65536 -> 0 <= command <= 255 ->
  (protocol ← lift (encode_message_protocol request command None checksum);
   pack ← lift (encode_message_pack protocol FLAGS_MESSAGE_PROTOCOL None);
   Device_write pack;;
   k) dev
  = k (mkDevice
         (written dev ++ chunks_of (request_frame command request checksum))
         (incoming dev)).
Proof.
  intros Hlen Hcommand.
  destruct (request_frame_encoded command request checksum Hlen Hcommand)
    as (protocol & -> & Hpack).
  rewrite bind_lift_Ok, Hpack, bind_lift_Ok.
  unfold mbind at 1, M_bind at 1. by rewrite Device_write_chunks_of.
Qed.

Lemma read_ack_eq (command : Z) (dev : Device) :
  read_ack command dev =
    match incoming dev with
    | ack :: rest => (ack_checks ack command, mkDevice (written dev) rest)
    | [] => (Raise (USBTimeoutError (-7)), dev)
    end.
Proof.
  unfold read_ack, Device_read, mbind at 1, M_bind at 1, usb_read.
  by destruct (incoming dev).
Qed.

Lemma request_acked {A : Type}
    (command : Z) (request : bytes) (checksum : bool) (k : bool -> M A)
    (dev : Device) (ack : bytes) (rest : list bytes) (has_no_config : bool) :
  len request + 4 < 65536 -> 0 <= command <= 255 ->
  incoming dev = ack :: rest ->
  ack_checks ack command = Ok has_no_config ->
  (protocol ← lift (encode_message_protocol request command None checksum);
   pack ← lift (encode_message_pack protocol FLAGS_MESSAGE_PROTOCOL None);
   Device_write pack;;
   read_ack command ≫= k) dev
  = k has_no_config
      (mkDevice
         (written dev ++ chunks_of (request_frame command request checksum))
         rest).
Proof.
  intros Hlen Hcommand Hincoming Hack.
  rewrite request_sent by done.
  unfold mbind at 1, M_bind at 1. rewrite read_ack_eq.
  cbn [incoming written]. by rewrite Hincoming, Hack.
Qed.

Lemma request_ack_refused {A : Type}
    (command : Z) (request : bytes) (checksum : bool) (k : bool -> M A)
    (dev : Device) (ack : bytes) (rest : list bytes) (e : exn) :
  len request + 4 < 65536 -> 0 <= command <= 255 ->
  incoming dev = ack :: rest ->
  ack_checks ack command = Raise e ->
  (protocol ← lift (encode_message_protocol request command None checksum);
   pack ← lift (encode_message_pack protocol FLAGS_MESSAGE_PROTOCOL None);
   Device_write pack;;
   read_ack command ≫= k) dev
  = (Raise e,
     mkDevice
       (written dev ++ chunks_of (request_frame command request checksum))
       rest).
Proof.
  intros Hlen Hcommand Hincoming Hack.
  rewrite request_sent by done.
  unfold mbind at 1, M_bind at 1. rewrite read_ack_eq.
  cbn [incoming written]. by rewrite Hincoming, Hack.
Qed.

Lemma request_unanswered {A : Type}
    (command : Z) (request : bytes) (checksum : bool) (k : bool -> M A)
    (dev : Device) :
  len request + 4 < 65536 -> 0 <= command <= 255 ->
  incoming dev = [] ->
  (protocol ← lift (encode_message_protocol request command None checksum);
   pack ← lift (encode_message_pack protocol FLAGS_MESSAGE_PROTOCOL None);
   Device_write pack;;
   read_ack command ≫= k) dev
  = (Raise (USBTimeoutError (-7)),
     mkDevice
       (written dev ++ chunks_of (request_frame command request checksum))
       []).
Proof.
  intros Hlen Hcommand Hincoming.
  rewrite request_sent by done.
  unfold mbind at 1, M_bind at 1. rewrite read_ack_eq.
  cbn [incoming written]. by rewrite Hincoming.
Qed.

Lemma Device_read_eq {A : Type} (size : Z) (k : bytes -> M A) (dev : Device) :
  (Device_read size ≫= k) dev =
    match incoming dev with
    | buffer :: rest => k buffer (mkDevice (written dev) rest)
    | [] => (Raise (USBTimeoutError (-7)), dev)
    end.
Proof.
  unfold Device_read, mbind, M_bind, usb_read.
  by destruct (incoming dev).
Qed.

(** Closes the side condition that a command constant is a byte. *)
Ltac command_is_byte :=
  split; (let H := fresh "Hcmp" in intros H; discriminate H).

(** ** Reading the OTP *)

(** X17: [read_otp], given a valid ack and a valid response, returns the
    response data unmodified, whatever its length, and consumes exactly
    those two buffers. *)
Theorem read_otp_returns_response
    (dev : Device) (ack response message : bytes) (rest : list bytes) :
  incoming dev = ack :: response :: rest ->
  valid_ack ack COMMAND_READ_OTP ->
  valid_response response COMMAND_READ_OTP message ->
  (read_otp dev).1 = Ok message /\ incoming (read_otp dev).2 = rest.
Proof.
  intros Hincoming [has_no_config Hack] Hresponse.
  unfold read_otp.
  erewrite request_acked; [|done|command_is_byte|exact Hincoming|exact Hack].
  rewrite Device_read_eq. cbn [incoming written].
  unfold valid_response in Hresponse. unfold lift. rewrite Hresponse. done.
Qed.

Lemma ack_for_other_command (ack : bytes) (other command : Z) :
  valid_ack ack other -> other <> command ->
  ack_checks ack command = Raise (ValueError "Invalid ack").
Proof.
  intros [has_no_config Hack] Hother. unfold ack_checks.
  destruct (check_message_pack ack FLAGS_MESSAGE_PROTOCOL) as [pack|];
    [|done].
  rewrite result_bind_Ok in Hack |- *.
  destruct (check_message_protocol pack COMMAND_ACK true) as [protocol|];
    [|done].
  rewrite result_bind_Ok in Hack |- *.
  unfold check_ack in *.
  destruct (decode_ack protocol) as [[acked flag]|]; [|done].
  rewrite result_bind_Ok in Hack |- *. cbn [fst snd] in *.
  destruct (Z.eqb_spec acked other) as [->|]; [|done].
  by destruct (Z.eqb_spec other command).
Qed.

(** X18: what makes [read_otp] fail before any response is validated.
    A frame read as ack that is a valid ack of another command raises
    [ValueError] (invalid ack) although its validity bit is set, and the
    buffers behind it stay unread.  A timeout is fatal: with nothing
    pending the ack read raises [USBTimeoutError], and with only a valid
    ack pending the response read does. *)
Theorem read_otp_failures (dev : Device) :
  (forall (ack : bytes) (rest : list bytes) (other : Z),
     incoming dev = ack :: rest ->
     valid_ack ack other -> other <> COMMAND_READ_OTP ->
     (read_otp dev).1 = Raise (ValueError "Invalid ack") /\
     incoming (read_otp dev).2 = rest) /\
  (incoming dev = [] ->
   (read_otp dev).1 = Raise (USBTimeoutError (-7))) /\
  (forall ack : bytes,
     incoming dev = [ack] -> valid_ack ack COMMAND_READ_OTP ->
     (read_otp dev).1 = Raise (USBTimeoutError (-7))).
Proof.
  split; [|split].
  - intros ack rest other Hincoming Hack Hother. unfold read_otp.
    erewrite request_ack_refused;
      [|done|command_is_byte|exact Hincoming
       |exact (ack_for_other_command ack other _ Hack Hother)].
    done.
  - intros Hincoming. unfold read_otp.
    erewrite request_unanswered; [|done|command_is_byte|exact Hincoming].
    done.
  - intros ack Hincoming [has_no_config Hack]. unfold read_otp.
    erewrite request_acked; [|done|command_is_byte|exact Hincoming|exact Hack].
    by rewrite Device_read_eq.
Qed.

(** ** NOP *)

Lemma nop_eq (dev : Device) :
  nop dev =
    match incoming dev with
    | [] =>
        (Ok (),
         mkDevice
           (written dev
            ++ chunks_of (request_frame COMMAND_NOP [x00; x00; x00; x00] false))
           [])
    | ack :: rest =>
        (ack_checks ack COMMAND_NOP ≫= fun _ => Ok (),
         mkDevice
           (written dev
            ++ chunks_of (request_frame COMMAND_NOP [x00; x00; x00; x00] false))
           rest)
    end.
Proof.
  unfold nop. rewrite request_sent by (done || command_is_byte).
  unfold ack_checks, except_USBTimeoutError, Device_read, usb_read, lift.
  unfold mbind, M_bind, result_bind, mret, M_ret. cbn [incoming written].
  destruct (incoming dev) as [|ack rest]; [reflexivity|].
  destruct (check_message_pack ack FLAGS_MESSAGE_PROTOCOL) as [pack|];
    [|reflexivity].
  destruct (check_message_protocol pack COMMAND_ACK true) as [protocol|];
    [|reflexivity].
  by destruct (check_ack protocol COMMAND_NOP).
Qed.

(** X19: [nop] writes one 64-byte chunk, the doubly framed request of four
    zero bytes with the sentinel trailer 0x88, and tolerates a device that
    does not answer: with nothing pending it returns normally.  When a
    buffer is pending it must pass the ack checks for NOP: the call returns
    if it does and raises the error of the failing check if not. *)
Theorem nop_reply_optional (dev : Device) :
  written (nop dev).2
    = written dev
      ++ [[xa0; x08; x00; xa8; x00; x05; x00; x00; x00; x00; x00; x88]
          ++ replicate 52 x00] /\
  (incoming dev = [] ->
   (nop dev).1 = Ok () /\ incoming (nop dev).2 = []) /\
  (forall (ack : bytes) (rest : list bytes),
     incoming dev = ack :: rest ->
     (nop dev).1 = (ack_checks ack COMMAND_NOP ≫= fun _ => Ok ()) /\
     incoming (nop dev).2 = rest).
Proof.
  rewrite nop_eq.
  change (chunks_of (request_frame COMMAND_NOP [x00; x00; x00; x00] false))
    with [[xa0; x08; x00; xa8; x00; x05; x00; x00; x00; x00; x00; x88]
          ++ replicate 52 x00].
  destruct (incoming dev) as [|ack rest].
  - done.
  - split; [done|]. split; [done|]. by intros ack' rest' [= <- <-].
Qed.

(** ** Validation of the responses *)

(** Runs the request, ack and response steps of the exchange in the goal,
    leaving first the command's own validation of the response data and
    then the side condition on the size of the request. *)
Ltac exchange_steps Hincoming Hack Hresponse :=
  erewrite request_acked;
    [| |command_is_byte|exact Hincoming|exact Hack];
    [rewrite Device_read_eq; cbn [incoming written];
     unfold valid_response in Hresponse;
     rewrite Hresponse, bind_lift_Ok|].

(** X20: [read_firmware] returns the response data exactly when its length
    is the requested length; a response that is longer or shorter raises
    [SystemError] (invalid response length) and is neither truncated nor
    padded. *)
Theorem read_firmware_exact_length
    (offset length : Z) (dev : Device)
    (ack response message : bytes) (rest : list bytes) :
  0 <= offset < 2 ^ 32 -> 0 <= length < 2 ^ 32 ->
  incoming dev = ack :: response :: rest ->
  valid_ack ack COMMAND_READ_FIRMWARE ->
  valid_response response COMMAND_READ_FIRMWARE message ->
  (read_firmware offset length dev).1 =
    if len message =? length
    then Ok message
    else Raise (SystemError "Invalid response length").
Proof.
  intros Hoffset Hlength Hincoming [has_no_config Hack] Hresponse.
  change (2 ^ 32) with 4294967296 in *.
  unfold read_firmware.
  rewrite (pack_I_ok offset), bind_lift_Ok by done.
  rewrite (pack_I_ok length), bind_lift_Ok by done.
  exchange_steps Hincoming Hack Hresponse; [|done].
  by destruct (len message =? length).
Qed.

(** X21: [reset].  With [soft_reset_mcu] the call returns [None] as soon as
    the ack is valid and reads no response; without it the response must
    be exactly 3 bytes whose first is 0x01, and the result is the
    little-endian u16 of the other two.  A wrong length raises
    [SystemError] (invalid response length), a wrong first byte
    [SystemError] (invalid response). *)
Theorem reset_response
    (reset_sensor : bool) (sleep_time : Z) (dev : Device)
    (ack : bytes) (rest : list bytes) :
  0 <= sleep_time <= 255 ->
  incoming dev = ack :: rest ->
  valid_ack ack COMMAND_RESET ->
  ((reset reset_sensor true sleep_time dev).1 = Ok None /\
   incoming (reset reset_sensor true sleep_time dev).2 = rest) /\
  (forall (response message : bytes) (rest' : list bytes),
     rest = response :: rest' ->
     valid_response response COMMAND_RESET message ->
     (reset reset_sensor false sleep_time dev).1 =
       match message with
       | [m0; r0; r1] =>
           if byte_val m0 =? 0x01
           then Ok (Some (byte_val r0 + 256 * byte_val r1))
           else Raise (SystemError "Invalid response")
       | _ => Raise (SystemError "Invalid response length")
       end).
Proof.
  intros Hsleep Hincoming [has_no_config Hack]. split.
  - unfold reset.
    rewrite (pack_B_ok (Z.lor _ _)), bind_lift_Ok
      by (destruct reset_sensor; by vm_compute).
    rewrite (pack_B_ok sleep_time), bind_lift_Ok by done.
    erewrite request_acked;
      [|done|command_is_byte|exact Hincoming|exact Hack].
    done.
  - intros response message rest' -> Hresponse. unfold reset.
    rewrite (pack_B_ok (Z.lor _ _)), bind_lift_Ok
      by (destruct reset_sensor; by vm_compute).
    rewrite (pack_B_ok sleep_time), bind_lift_Ok by done.
    exchange_steps Hincoming Hack Hresponse; [|done].
    destruct message as [|m0 [|r0 [|r1 [|extra message]]]]; try reflexivity.
    + change (len [m0; r0; r1] =? 3) with true. cbn [negb].
      change (index [m0; r0; r1] 0) with (Ok (byte_val m0)).
      rewrite bind_lift_Ok.
      destruct (byte_val m0 =? 1); reflexivity.
    + unfold len. cbn [length].
      destruct (Z.eqb_spec
                  (Z.of_nat (S (S (S (S (length message)))))) 3); [lia|done].
Qed.

(** X22: the commands whose success sentinel is 0x01.  For
    [upload_config_mcu], [set_powerdown_scan_frequency], [write_firmware]
    and [check_firmware] alike the response must be exactly 2 bytes
    ([SystemError], invalid response length, otherwise) and its first byte
    must be 0x01 ([SystemError], invalid response, otherwise); the second
    byte is not examined. *)
Theorem success_sentinel_0x01
    (dev : Device) (ack response message : bytes) (rest : list bytes) :
  incoming dev = ack :: response :: rest ->
  let verdict : result unit :=
    match message with
    | [m0; _] =>
        if byte_val m0 =? 0x01
        then Ok ()
        else Raise (SystemError "Invalid response")
    | _ => Raise (SystemError "Invalid response length")
    end in
  (forall config : bytes,
     len config + 4 < 2 ^ 16 ->
     valid_ack ack COMMAND_UPLOAD_CONFIG_MCU ->
     valid_response response COMMAND_UPLOAD_CONFIG_MCU message ->
     (upload_config_mcu config dev).1 = verdict) /\
  (forall powerdown_scan_frequency : Z,
     0 <= powerdown_scan_frequency < 2 ^ 16 ->
     valid_ack ack COMMAND_SET_POWERDOWN_SCAN_FREQUENCY ->
     valid_response response COMMAND_SET_POWERDOWN_SCAN_FREQUENCY message ->
     (set_powerdown_scan_frequency powerdown_scan_frequency dev).1 = verdict) /\
  (forall (offset : Z) (data : bytes),
     0 <= offset < 2 ^ 32 -> len data + 12 < 2 ^ 16 ->
     valid_ack ack COMMAND_WRITE_FIRMWARE ->
     valid_response response COMMAND_WRITE_FIRMWARE message ->
     (write_firmware offset data dev).1 = verdict) /\
  (forall (offset length checksum : Z) (data : option bytes),
     0 <= offset < 2 ^ 32 -> 0 <= length < 2 ^ 32 ->
     0 <= checksum < 2 ^ 32 ->
     len (match data with Some data => data | None => [] end) + 16 < 2 ^ 16 ->
     valid_ack ack COMMAND_CHECK_FIRMWARE ->
     valid_response response COMMAND_CHECK_FIRMWARE message ->
     (check_firmware offset length checksum data dev).1 = verdict).
Proof.
  intros Hincoming verdict.
  change (2 ^ 32) with 4294967296. change (2 ^ 16) with 65536.
  assert (Hverdict : forall dev' : Device,
    ((if negb (len message =? 2)
      then lift (Raise (SystemError "Invalid response length"))
      else
        m0 ← lift (index message 0);
        if negb (m0 =? 1)
        then lift (Raise (SystemError "Invalid response"))
        else mret ()) dev').1 = verdict).
  { intros dev'. subst verdict.
    destruct message as [|m0 [|m1 [|extra message]]]; try reflexivity.
    - change (len [m0; m1] =? 2) with true. cbn [negb].
      change (index [m0; m1] 0) with (Ok (byte_val m0)).
      rewrite bind_lift_Ok. by destruct (byte_val m0 =? 1).
    - unfold len. cbn [Datatypes.length].
      destruct (Z.eqb_spec (Z.of_nat (S (S (S (length message))))) 2);
        [lia|done]. }
  split; [|split; [|split]].
  - intros config Hconfig [has_no_config Hack] Hresponse.
    unfold upload_config_mcu.
    exchange_steps Hincoming Hack Hresponse; [apply Hverdict|done].
  - intros frequency Hfrequency [has_no_config Hack] Hresponse.
    unfold set_powerdown_scan_frequency.
    rewrite pack_H_ok, bind_lift_Ok by done.
    exchange_steps Hincoming Hack Hresponse; [apply Hverdict|done].
  - intros offset data Hoffset Hdata [has_no_config Hack] Hresponse.
    pose proof (len_nonneg data).
    unfold write_firmware.
    rewrite (pack_I_ok offset), bind_lift_Ok by done.
    rewrite (pack_I_ok (len data)), bind_lift_Ok by lia.
    exchange_steps Hincoming Hack Hresponse; [apply Hverdict|].
    rewrite !len_app. unfold len in *. cbn [Datatypes.length]. lia.
  - intros offset length checksum data Hoffset Hlength Hchecksum Hdata
      [has_no_config Hack] Hresponse.
    unfold check_firmware. cbv zeta.
    rewrite (pack_I_ok offset), bind_lift_Ok by done.
    rewrite (pack_I_ok length), bind_lift_Ok by done.
    rewrite (pack_I_ok checksum), bind_lift_Ok by done.
    exchange_steps Hincoming Hack Hresponse; [apply Hverdict|].
    destruct data;
      rewrite !len_app; unfold len in *; cbn [Datatypes.length]; lia.
Qed.

(** X23: [preset_psk_write_r] uses the success sentinel 0x00, not 0x01, and
    bounds the response from above only: a response of 1 or 2 bytes whose
    first byte is 0x00 succeeds, a first byte other than 0x00 raises
    [SystemError] (invalid response), and more than 2 bytes raise
    [SystemError] (invalid response length). *)
Theorem preset_psk_write_r_response
    (address length : Z) (data : bytes) (dev : Device)
    (ack response : bytes) (m0 : byte) (more : bytes) (rest : list bytes) :
  0 <= address < 2 ^ 32 -> 0 <= length < 2 ^ 32 -> len data + 12 < 2 ^ 16 ->
  incoming dev = ack :: response :: rest ->
  valid_ack ack COMMAND_PRESET_PSK_WRITE_R ->
  valid_response response COMMAND_PRESET_PSK_WRITE_R (m0 :: more) ->
  (preset_psk_write_r address length data dev).1 =
    if 1 <? len more
    then Raise (SystemError "Invalid response length")
    else if byte_val m0 =? 0x00
         then Ok ()
         else Raise (SystemError "Invalid response").
Proof.
  intros Haddress Hlength Hdata Hincoming [has_no_config Hack] Hresponse.
  change (2 ^ 32) with 4294967296 in *. change (2 ^ 16) with 65536 in *.
  unfold preset_psk_write_r.
  rewrite (pack_I_ok address), bind_lift_Ok by done.
  rewrite (pack_I_ok length), bind_lift_Ok by done.
  exchange_steps Hincoming Hack Hresponse.
  - replace (2 <? len (m0 :: more)) with (1 <? len more)
      by (unfold len; cbn [Datatypes.length];
          destruct (Z.ltb_spec 1 (Z.of_nat (Datatypes.length more))),
                   (Z.ltb_spec 2 (Z.of_nat (S (Datatypes.length more))));
          lia).
    destruct (1 <? len more); [done|].
    change (index (m0 :: more) 0) with (Ok (byte_val m0)).
    rewrite bind_lift_Ok. by destruct (byte_val m0 =? 0).
  - rewrite !len_app. unfold len in *. cbn [Datatypes.length]. lia.
Qed.

(** X24: the commands with a fixed 16-byte response.  The three
    FDT-switch commands and [query_mcu_state] return the response data
    when it is exactly 16 bytes long and raise [SystemError] (invalid
    response length) for any other length. *)
Theorem fixed_16_byte_responses
    (dev : Device) (ack response message : bytes) (rest : list bytes) :
  incoming dev = ack :: response :: rest ->
  let verdict : result bytes :=
    if len message =? 16
    then Ok message
    else Raise (SystemError "Invalid response length") in
  (forall mode : bytes,
     len mode + 4 < 2 ^ 16 ->
     valid_ack ack COMMAND_MCU_SWITCH_TO_FDT_DOWN ->
     valid_response response COMMAND_MCU_SWITCH_TO_FDT_DOWN message ->
     (mcu_switch_to_fdt_down mode dev).1 = verdict) /\
  (forall mode : bytes,
     len mode + 4 < 2 ^ 16 ->
     valid_ack ack COMMAND_MCU_SWITCH_TO_FDT_UP ->
     valid_response response COMMAND_MCU_SWITCH_TO_FDT_UP message ->
     (mcu_switch_to_fdt_up mode dev).1 = verdict) /\
  (forall mode : bytes,
     len mode + 4 < 2 ^ 16 ->
     valid_ack ack COMMAND_MCU_SWITCH_TO_FDT_MODE ->
     valid_response response COMMAND_MCU_SWITCH_TO_FDT_MODE message ->
     (mcu_switch_to_fdt_mode mode dev).1 = verdict) /\
  (valid_ack ack COMMAND_QUERY_MCU_STATE ->
   valid_response response COMMAND_QUERY_MCU_STATE message ->
   (query_mcu_state dev).1 = verdict).
Proof.
  intros Hincoming verdict. subst verdict. change (2 ^ 16) with 65536.
  split; [|split; [|split]].
  - intros mode Hmode [has_no_config Hack] Hresponse.
    unfold mcu_switch_to_fdt_down.
    exchange_steps Hincoming Hack Hresponse; [|done].
    by destruct (len message =? 16).
  - intros mode Hmode [has_no_config Hack] Hresponse.
    unfold mcu_switch_to_fdt_up.
    exchange_steps Hincoming Hack Hresponse; [|done].
    by destruct (len message =? 16).
  - intros mode Hmode [has_no_config Hack] Hresponse.
    unfold mcu_switch_to_fdt_mode.
    exchange_steps Hincoming Hack Hresponse; [|done].
    by destruct (len message =? 16).
  - intros [has_no_config Hack] Hresponse.
    unfold query_mcu_state.
    exchange_steps Hincoming Hack Hresponse; [|done].
    by destruct (len message =? 16).
Qed.

(** X25: the commands that expect an ack only.  Once the ack is valid,
    [mcu_switch_to_idle_mode], [enable_chip], [mcu_erase_app] and
    [tls_successfully_established] return, and they read nothing after the
    ack: whatever else is pending stays pending. *)
Theorem ack_only_commands
    (dev : Device) (ack : bytes) (rest : list bytes) :
  incoming dev = ack :: rest ->
  (forall sleep_time : Z,
     0 <= sleep_time <= 255 ->
     valid_ack ack COMMAND_MCU_SWITCH_TO_IDLE_MODE ->
     (mcu_switch_to_idle_mode sleep_time dev).1 = Ok () /\
     incoming (mcu_switch_to_idle_mode sleep_time dev).2 = rest) /\
  (forall enable : bool,
     valid_ack ack COMMAND_ENABLE_CHIP ->
     (enable_chip enable dev).1 = Ok () /\
     incoming (enable_chip enable dev).2 = rest) /\
  (forall sleep_time : Z,
     0 <= sleep_time <= 255 ->
     valid_ack ack COMMAND_MCU_ERASE_APP ->
     (mcu_erase_app sleep_time dev).1 = Ok () /\
     incoming (mcu_erase_app sleep_time dev).2 = rest) /\
  (valid_ack ack COMMAND_TLS_SUCCESSFULLY_ESTABLISHED ->
   (tls_successfully_established dev).1 = Ok () /\
   incoming (tls_successfully_established dev).2 = rest).
Proof.
  intros Hincoming. split; [|split; [|split]].
  - intros sleep_time Hsleep [has_no_config Hack].
    unfold mcu_switch_to_idle_mode.
    rewrite (pack_B_ok sleep_time), bind_lift_Ok by done.
    erewrite request_acked;
      [|done|command_is_byte|exact Hincoming|exact Hack].
    done.
  - intros enable [has_no_config Hack]. unfold enable_chip.
    rewrite pack_B_ok, bind_lift_Ok by (destruct enable; by vm_compute).
    erewrite request_acked;
      [|done|command_is_byte|exact Hincoming|exact Hack].
    done.
  - intros sleep_time Hsleep [has_no_config Hack]. unfold mcu_erase_app.
    rewrite (pack_B_ok sleep_time), bind_lift_Ok by done.
    erewrite request_acked;
      [|done|command_is_byte|exact Hincoming|exact Hack].
    done.
  - intros [has_no_config Hack]. unfold tls_successfully_established.
    erewrite request_acked;
      [|done|command_is_byte|exact Hincoming|exact Hack].
    done.
Qed.

(** ** Responses with their own framing *)

Lemma check_message_protocol_policy
    (data pad : bytes) (command : Z) (encoded checked : bool) :
  len data + 1 < 65536 -> 0 <= command <= 255 ->
  check_message_protocol
    (byte_of command :: byte_of ((len data + 1) mod 256)
     :: byte_of ((len data + 1) / 256)
     :: data ++ byte_of (trailer_of command data encoded) :: pad)
    command checked =
    if Bool.eqb encoded checked || (trailer_of command data true =? 0x88)
    then Ok data
    else Raise (ValueError "Invalid payload").
Proof.
  intros Hlen Hcommand. pose proof (len_nonneg data).
  rewrite check_message_protocol_cons by (rewrite !byte_val_of; lia).
  rewrite !byte_val_of by (unfold trailer_of; destruct encoded; lia).
  rewrite Z.eqb_refl. cbn [negb].
  unfold trailer_of. destruct encoded, checked; cbn [Bool.eqb orb negb].
  - by rewrite Z.eqb_refl.
  - by destruct (_ =? 136).
  - rewrite (Z.eqb_sym 136). by destruct (_ =? 136).
  - done.
Qed.

Lemma request_frame_checked
    (command : Z) (data pad : bytes) (checksum : bool) :
  len data + 4 < 65536 -> 0 <= command <= 255 ->
  exists protocol : bytes,
    check_message_pack (request_frame command data checksum ++ pad)
      FLAGS_MESSAGE_PROTOCOL = Ok protocol /\
    protocol = byte_of command :: byte_of ((len data + 1) mod 256)
               :: byte_of ((len data + 1) / 256)
               :: data ++ byte_of (trailer_of command data checksum) :: [].
Proof.
  intros Hlen Hcommand. pose proof (len_nonneg data).
  unfold request_frame.
  rewrite encode_message_protocol_shape, result_bind_Ok by lia.
  set (protocol := byte_of command :: byte_of ((len data + 1) mod 256)
                   :: byte_of ((len data + 1) / 256)
                   :: data ++ [byte_of (trailer_of command data checksum)]).
  assert (Hprotocol : len protocol = len data + 4)
    by (unfold protocol, len; cbn [length]; rewrite length_app;
        cbn [length]; lia).
  rewrite encode_message_pack_shape by (rewrite ?Hprotocol; done || lia).
  exists protocol. split; [|done]. cbn [app].
  apply check_message_pack_encoded; [lia|done].
Qed.

(** X26: [nav_0] checks its response under the no-checksum policy, which
    demands the sentinel trailer.  A response framed without checksum
    yields its data; a response that carries a genuine checksum is refused
    with [ValueError] (invalid payload) unless that checksum happens to be
    0x88. *)
Theorem nav_0_expects_sentinel
    (dev : Device) (ack data pad : bytes) (useChecksum : bool)
    (rest : list bytes) :
  len data + 4 < 2 ^ 16 ->
  incoming dev
    = ack :: (request_frame COMMAND_NAV_0 data useChecksum ++ pad) :: rest ->
  valid_ack ack COMMAND_NAV_0 ->
  (nav_0 dev).1 =
    if negb useChecksum || (trailer_of COMMAND_NAV_0 data true =? 0x88)
    then Ok data
    else Raise (ValueError "Invalid payload").
Proof.
  intros Hlen Hincoming [has_no_config Hack].
  change (2 ^ 16) with 65536 in Hlen. unfold nav_0.
  erewrite request_acked; [|done|command_is_byte|exact Hincoming|exact Hack].
  rewrite Device_read_eq. cbn [incoming written]. unfold lift. cbn [fst].
  destruct (request_frame_checked COMMAND_NAV_0 data pad useChecksum)
    as (protocol & -> & ->); [done|command_is_byte|].
  rewrite result_bind_Ok.
  rewrite check_message_protocol_policy by (lia || command_is_byte).
  by destruct useChecksum.
Qed.

(** X27: [mcu_get_image] reads two buffers after the ack and unwraps their
    concatenation as one message pack with flags 0xb0: an image frame split
    between the two reads at any point is returned whole, without any
    message-protocol validation of its content.  The second read is
    unconditional, so a device that delivers only one buffer makes the
    call time out. *)
Theorem mcu_get_image_two_reads (dev : Device) (ack : bytes) :
  valid_ack ack COMMAND_MCU_GET_IMAGE ->
  (forall (first second data frame pad : bytes) (rest : list bytes),
     incoming dev = ack :: first :: second :: rest ->
     encode_message_pack data FLAGS_TRANSPORT_LAYER_SECURITY None = Ok frame ->
     first ++ second = frame ++ pad ->
     (mcu_get_image dev).1 = Ok data /\
     incoming (mcu_get_image dev).2 = rest) /\
  (forall first : bytes,
     incoming dev = [ack; first] ->
     (mcu_get_image dev).1 = Raise (USBTimeoutError (-7))).
Proof.
  intros [has_no_config Hack]. split.
  - intros first second data frame pad rest Hincoming Hencode Hsplit.
    unfold mcu_get_image.
    erewrite request_acked;
      [|done|command_is_byte|exact Hincoming|exact Hack].
    rewrite Device_read_eq. cbn [incoming written].
    rewrite Device_read_eq. cbn [incoming written].
    unfold lift. cbn [fst snd incoming]. split; [|done].
    rewrite Hsplit.
    destruct (encode_message_pack_inv _ _ _ Hencode) as [Hlen Hflags].
    rewrite encode_message_pack_shape in Hencode by done.
    injection Hencode as <-. cbn [app].
    by apply check_message_pack_encoded.
  - intros first Hincoming. unfold mcu_get_image.
    erewrite request_acked;
      [|done|command_is_byte|exact Hincoming|exact Hack].
    rewrite Device_read_eq. cbn [incoming written].
    by rewrite Device_read_eq.
Qed.

(** X28: [request_tls_connection] unwraps its response as a message pack
    with flags 0xb0 and returns its data as it is; a response framed with
    any other flags, 0xa0 included, raises [ValueError] (invalid message
    pack). *)
Theorem request_tls_connection_flags
    (dev : Device) (ack data frame pad : bytes) (flags : Z)
    (rest : list bytes) :
  encode_message_pack data flags None = Ok frame ->
  incoming dev = ack :: (frame ++ pad) :: rest ->
  valid_ack ack COMMAND_REQUEST_TLS_CONNECTION ->
  (request_tls_connection dev).1 =
    if flags =? FLAGS_TRANSPORT_LAYER_SECURITY
    then Ok data
    else Raise (ValueError "Invalid message pack").
Proof.
  intros Hencode Hincoming [has_no_config Hack].
  unfold request_tls_connection.
  erewrite request_acked; [|done|command_is_byte|exact Hincoming|exact Hack].
  rewrite Device_read_eq. cbn [incoming written]. unfold lift. cbn [fst].
  destruct (encode_message_pack_inv _ _ _ Hencode) as [Hlen Hflags].
  pose proof (len_nonneg data).
  rewrite encode_message_pack_shape in Hencode by done.
  injection Hencode as <-. cbn [app].
  destruct (Z.eqb_spec flags FLAGS_TRANSPORT_LAYER_SECURITY) as [->|Hne].
  - by apply check_message_pack_encoded.
  - rewrite check_message_pack_cons, !byte_val_of by lia.
    rewrite Z.eqb_refl. cbn [negb].
    by destruct (Z.eqb_spec flags FLAGS_TRANSPORT_LAYER_SECURITY).
Qed.

(** ** Sensor registers, single mode *)

Lemma written_chunks_decode
    (command : Z) (data : bytes) (checksum : bool) :
  len data + 4 < 65536 -> 0 <= command <= 255 ->
  (pack ← check_message_pack
            (concat (chunks_of (request_frame command data checksum)))
            FLAGS_MESSAGE_PROTOCOL;
   check_message_protocol pack command checksum) = Ok data.
Proof.
  intros Hlen Hcommand.
  destruct (chunks_of_spec (request_frame command data checksum))
    as (-> & _ & _).
  destruct (request_frame_checked command data
              (replicate
                 (Z.to_nat
                    ((- len (request_frame command data checksum)) mod 64))
                 x00) checksum Hlen Hcommand) as (protocol & -> & ->).
  rewrite result_bind_Ok.
  rewrite check_message_protocol_encoded by lia.
  by rewrite Z.eqb_refl.
Qed.

(** X29: [write_sensor_register] in single mode sends the mode byte 0x00,
    the little-endian u16 address and the value, whose length is not
    examined, and returns once the ack is valid, reading nothing else.
    Arguments of mismatched kinds raise [ValueError] (invalid value)
    before anything is written. *)
Theorem write_sensor_register_single
    (address : Z) (value : bytes) (dev : Device) :
  (forall (ack : bytes) (rest : list bytes),
     0 <= address < 2 ^ 16 -> len value + 7 < 2 ^ 16 ->
     incoming dev = ack :: rest ->
     valid_ack ack COMMAND_WRITE_SENSOR_REGISTER ->
     (write_sensor_register (AddressInt address) (ValueBytes value) dev).1
       = Ok () /\
     incoming
       (write_sensor_register (AddressInt address) (ValueBytes value) dev).2
       = rest /\
     exists chunks : list bytes,
       written
         (write_sensor_register (AddressInt address) (ValueBytes value) dev).2
         = written dev ++ chunks /\
       (pack ← check_message_pack (concat chunks) FLAGS_MESSAGE_PROTOCOL;
        check_message_protocol pack COMMAND_WRITE_SENSOR_REGISTER true)
         = Ok ([x00; byte_of (address mod 256); byte_of (address / 256)]
               ++ value)) /\
  (forall values : list bytes,
     write_sensor_register (AddressInt address) (ValueList values) dev
       = (Raise (ValueError "Invalid value"), dev)) /\
  (forall addresses : list Z,
     write_sensor_register (AddressList addresses) (ValueBytes value) dev
       = (Raise (ValueError "Invalid value"), dev)).
Proof.
  split; [|split; reflexivity].
  intros ack rest Haddress Hvalue Hincoming [has_no_config Hack].
  change (2 ^ 16) with 65536 in *.
  assert (Hfit : len ([x00] ++ [byte_of (address mod 256);
                                byte_of (address / 256)] ++ value) + 4 < 65536)
    by (rewrite !len_app; unfold len in *; cbn [length]; lia).
  unfold write_sensor_register.
  rewrite pack_H_ok, result_bind_Ok, bind_lift_Ok by done.
  erewrite request_acked;
    [|exact Hfit|command_is_byte|exact Hincoming|exact Hack].
  cbn [mret M_ret fst snd incoming written].
  split; [done|]. split; [done|].
  eexists. split; [reflexivity|].
  apply written_chunks_decode; [exact Hfit|command_is_byte].
Qed.

(** X30: [read_sensor_register].  In single mode, with a u16 address and a
    requested length that fits one byte, the response data is returned
    exactly when its length is the requested length, and any other length
    raises [SystemError] (invalid response length).  In batch mode a
    requested length other than 2 raises [ValueError] (invalid length)
    before anything is written. *)
Theorem read_sensor_register_single (length : Z) (dev : Device) :
  (forall (address : Z) (ack response message : bytes) (rest : list bytes),
     0 <= address < 2 ^ 16 -> 0 <= length <= 255 ->
     incoming dev = ack :: response :: rest ->
     valid_ack ack COMMAND_READ_SENSOR_REGISTER ->
     valid_response response COMMAND_READ_SENSOR_REGISTER message ->
     (read_sensor_register (AddressInt address) length dev).1 =
       if len message =? length
       then Ok (ValueBytes message)
       else Raise (SystemError "Invalid response length")) /\
  (forall addresses : list Z,
     length <> 2 ->
     read_sensor_register (AddressList addresses) length dev
       = (Raise (ValueError "Invalid length"), dev)).
Proof.
  split.
  - intros address ack response message rest Haddress Hlength Hincoming
      [has_no_config Hack] Hresponse.
    change (2 ^ 16) with 65536 in *.
    unfold read_sensor_register.
    rewrite pack_H_ok, result_bind_Ok by done.
    rewrite pack_B_ok, result_bind_Ok, bind_lift_Ok by done.
    exchange_steps Hincoming Hack Hresponse; [|done].
    by destruct (len message =? length).
  - intros addresses Hlength. unfold read_sensor_register.
    by destruct (Z.eqb_spec length 2).
Qed.

(** * Instances of the further properties *)

Lemma check_message_pack_accepts_iff_witness :
  check_message_pack [xa0; x02; x00; xa2; x01; x02; x00; x00] 0xa0
    = Ok [x01; x02].
Proof.
  apply (proj2 (check_message_pack_accepts_iff
                  [xa0; x02; x00; xa2; x01; x02; x00; x00] [x01; x02] 0xa0)).
  exists [xa0; x02; x00; xa2; x01; x02], [x00; x00]. split; reflexivity.
Defined.

Lemma check_message_pack_truncated_witness :
  check_message_pack (take 5 [xa0; x02; x00; xa2; x01; x02]) 0xa0
    = Raise (ValueError "Invalid message pack") /\
  decode_message_pack (take 5 [xa0; x02; x00; xa2; x01; x02])
    = Ok (take (5 - 4) [x01; x02], 0xa0, len [x01; x02]).
Proof.
  apply (check_message_pack_truncated
           [x01; x02] [xa0; x02; x00; xa2; x01; x02] 0xa0 5);
    [reflexivity|simpl; lia].
Defined.

Lemma decode_message_pack_short_witness :
  decode_message_pack [xa0; x02] = Raise StructError /\
  decode_message_pack [xa0; x02; x00] = Raise IndexError.
Proof.
  split.
  - apply (proj1 (decode_message_pack_short [xa0; x02])). by vm_compute.
  - apply (proj2 (decode_message_pack_short [xa0; x02; x00])). reflexivity.
Defined.

Lemma check_message_protocol_padded_witness :
  exists frame : bytes,
    encode_message_protocol [x55] 0xae None true = Ok frame /\
    check_message_protocol (frame ++ [x00; x00]) 0xae true =
      if 0xae =? 0xae
      then Ok [x55]
      else Raise (ValueError "Invalid message protocol").
Proof.
  apply (check_message_protocol_padded [x55] [x00; x00] 0xae 0xae true);
    [reflexivity|lia].
Defined.

Lemma message_protocol_cross_policy_witness :
  exists frame : bytes,
    encode_message_protocol [x01; x00] 0x50 None true = Ok frame /\
    decode_message_protocol frame (negb true) =
      if trailer_of 0x50 [x01; x00] true =? 0x88
      then Ok ([x01; x00], 0x50, len [x01; x00])
      else Raise (ValueError "Invalid payload").
Proof.
  apply (message_protocol_cross_policy [x01; x00] 0x50 true);
    [reflexivity|lia].
Defined.

Lemma check_message_protocol_accepts_iff_witness :
  check_message_protocol [xaa; x00; x00] 0xaa true = Ok [].
Proof.
  apply (proj2 (check_message_protocol_accepts_iff
                  [xaa; x00; x00] [] 0xaa true)).
  right. repeat split. by exists [].
Defined.

Lemma message_protocol_checksum_sum_witness :
  Z.land (sum [x20; x03; x00; x01; x02; x84]) 0xff = 0xaa.
Proof.
  apply (message_protocol_checksum_sum
           [x01; x02] [x20; x03; x00; x01; x02; x84] 0x20).
  reflexivity.
Defined.

Lemma encode_decode_command_witness :
  exists cmd0 cmd1 : Z,
    decode_command 0xe4 = Ok (cmd0, cmd1) /\
    0 <= cmd0 <= 15 /\ 0 <= cmd1 <= 7 /\
    encode_command cmd0 cmd1 = 0xe4.
Proof.
  apply (encode_decode_command 0xe4); [lia|reflexivity].
Defined.

Lemma check_ack_gating_witness :
  check_ack [xa6] 0xa6 = Raise IndexError.
Proof.
  apply (proj1 (check_ack_gating 0xa6) [xa6]). by vm_compute.
Defined.

Lemma encode_message_pack_declared_length_witness :
  exists frame : bytes,
    encode_message_pack [x01; x02; x03] 0xa0 (Some 2) = Ok frame /\
    decode_message_pack frame
      = Ok (take (Z.to_nat 2) [x01; x02; x03], 0xa0, 2) /\
    check_message_pack frame 0xa0 =
      if len [x01; x02; x03] <? 2
      then Raise (ValueError "Invalid message pack")
      else Ok (take (Z.to_nat 2) [x01; x02; x03]).
Proof.
  apply (encode_message_pack_declared_length [x01; x02; x03] 0xa0 2); lia.
Defined.

Lemma request_framing_witness :
  (exists pack : bytes,
     (protocol ← encode_message_protocol [x00; x00] 0xa6 None true;
      encode_message_pack protocol FLAGS_MESSAGE_PROTOCOL None) = Ok pack /\
     len pack = len [x00; x00] + 8) /\
  (protocol ← encode_message_protocol [x00; x00] 0x100 None true;
   encode_message_pack protocol FLAGS_MESSAGE_PROTOCOL None)
    = Raise StructError.
Proof.
  split.
  - apply (proj1 (request_framing [x00; x00] 0xa6 true)).
    split; [lia|reflexivity].
  - apply (proj2 (request_framing [x00; x00] 0x100 true)). lia.
Defined.

Lemma decode_image_incomplete_chunk_witness :
  decode_image [x12; x34; x56; x78; x9a; xbc; xde] = Raise IndexError.
Proof.
  apply (decode_image_incomplete_chunk [x12; x34; x56; x78; x9a; xbc; xde]).
  by vm_compute.
Defined.

Lemma written_request_decodes_witness :
  exists (pack : bytes) (chunks : list bytes),
    (protocol ← encode_message_protocol [x00; x00] 0xa6 None true;
     encode_message_pack protocol FLAGS_MESSAGE_PROTOCOL None) = Ok pack /\
    Device_write pack (mkDevice [] [])
      = (Ok (), mkDevice ([] ++ chunks) []) /\
    (pack ← check_message_pack (concat chunks) FLAGS_MESSAGE_PROTOCOL;
     check_message_protocol pack 0xa6 true) = Ok [x00; x00].
Proof.
  apply (written_request_decodes [x00; x00] 0xa6 true (mkDevice [] []));
    [lia|reflexivity].
Defined.

Lemma empty_buffer_drains_witness :
  empty_buffer 3 (mkDevice [] [[x01]; [x02]]) = Some (Ok (), mkDevice [] []).
Proof.
  apply (empty_buffer_drains 3 (mkDevice [] [[x01]; [x02]])). simpl. lia.
Defined.

Lemma read_otp_returns_response_witness :
  (read_otp (mkDevice [] [ack_reply COMMAND_READ_OTP;
                          reply COMMAND_READ_OTP (replicate 32 x5a)])).1
    = Ok (replicate 32 x5a) /\
  incoming (read_otp (mkDevice [] [ack_reply COMMAND_READ_OTP;
                                   reply COMMAND_READ_OTP
                                     (replicate 32 x5a)])).2 = [].
Proof.
  apply (read_otp_returns_response
           (mkDevice [] [ack_reply COMMAND_READ_OTP;
                         reply COMMAND_READ_OTP (replicate 32 x5a)])
           (ack_reply COMMAND_READ_OTP)
           (reply COMMAND_READ_OTP (replicate 32 x5a))
           (replicate 32 x5a) []);
    [reflexivity|by (exists false; vm_compute)|by vm_compute].
Defined.

Lemma read_otp_failures_witness :
  (read_otp (mkDevice [] [ack_reply COMMAND_RESET; [x01]])).1
    = Raise (ValueError "Invalid ack") /\
  incoming (read_otp (mkDevice [] [ack_reply COMMAND_RESET; [x01]])).2
    = [[x01]].
Proof.
  apply (proj1 (read_otp_failures
                  (mkDevice [] [ack_reply COMMAND_RESET; [x01]]))
           (ack_reply COMMAND_RESET) [[x01]] COMMAND_RESET);
    [reflexivity|by (exists false; vm_compute)|by vm_compute].
Defined.

Lemma nop_reply_optional_witness :
  (nop (mkDevice [] [])).1 = Ok () /\ incoming (nop (mkDevice [] [])).2 = [].
Proof.
  apply (proj1 (proj2 (nop_reply_optional (mkDevice [] [])))). reflexivity.
Defined.

Lemma read_firmware_exact_length_witness :
  (read_firmware 0 100
     (mkDevice [] [ack_reply COMMAND_READ_FIRMWARE;
                   reply COMMAND_READ_FIRMWARE (replicate 99 xff)])).1 =
    if len (replicate 99 xff) =? 100
    then Ok (replicate 99 xff)
    else Raise (SystemError "Invalid response length").
Proof.
  apply (read_firmware_exact_length 0 100
           (mkDevice [] [ack_reply COMMAND_READ_FIRMWARE;
                         reply COMMAND_READ_FIRMWARE (replicate 99 xff)])
           (ack_reply COMMAND_READ_FIRMWARE)
           (reply COMMAND_READ_FIRMWARE (replicate 99 xff))
           (replicate 99 xff) []);
    [lia|lia|reflexivity|by (exists false; vm_compute)|by vm_compute].
Defined.

Lemma reset_response_witness :
  (reset true false 20
     (mkDevice [] [ack_reply COMMAND_RESET;
                   reply COMMAND_RESET [x01; x34; x12]])).1
    = Ok (Some 0x1234).
Proof.
  apply (proj2 (reset_response true 20
                  (mkDevice [] [ack_reply COMMAND_RESET;
                                reply COMMAND_RESET [x01; x34; x12]])
                  (ack_reply COMMAND_RESET)
                  [reply COMMAND_RESET [x01; x34; x12]]
                  ltac:(lia) eq_refl
                  ltac:(by (exists false; vm_compute)))
           (reply COMMAND_RESET [x01; x34; x12]) [x01; x34; x12] []);
    [reflexivity|by vm_compute].
Defined.

Lemma success_sentinel_0x01_witness :
  (upload_config_mcu [x01; x02]
     (mkDevice [] [ack_reply COMMAND_UPLOAD_CONFIG_MCU;
                   reply COMMAND_UPLOAD_CONFIG_MCU [x01; x00]])).1 = Ok ().
Proof.
  apply (proj1 (success_sentinel_0x01
                  (mkDevice [] [ack_reply COMMAND_UPLOAD_CONFIG_MCU;
                                reply COMMAND_UPLOAD_CONFIG_MCU [x01; x00]])
                  (ack_reply COMMAND_UPLOAD_CONFIG_MCU)
                  (reply COMMAND_UPLOAD_CONFIG_MCU [x01; x00])
                  [x01; x00] [] eq_refl) [x01; x02]);
    [reflexivity|by (exists false; vm_compute)|by vm_compute].
Defined.

Lemma preset_psk_write_r_response_witness :
  (preset_psk_write_r 0x1234 2 [xaa; xbb]
     (mkDevice [] [ack_reply COMMAND_PRESET_PSK_WRITE_R;
                   reply COMMAND_PRESET_PSK_WRITE_R [x00; x00]])).1 =
    if 1 <? len [x00]
    then Raise (SystemError "Invalid response length")
    else if byte_val x00 =? 0x00
         then Ok ()
         else Raise (SystemError "Invalid response").
Proof.
  apply (preset_psk_write_r_response 0x1234 2 [xaa; xbb]
           (mkDevice [] [ack_reply COMMAND_PRESET_PSK_WRITE_R;
                         reply COMMAND_PRESET_PSK_WRITE_R [x00; x00]])
           (ack_reply COMMAND_PRESET_PSK_WRITE_R)
           (reply COMMAND_PRESET_PSK_WRITE_R [x00; x00]) x00 [x00] []);
    [lia|lia|reflexivity|reflexivity
     |by (exists false; vm_compute)|by vm_compute].
Defined.

Lemma fixed_16_byte_responses_witness :
  (query_mcu_state
     (mkDevice [] [ack_reply COMMAND_QUERY_MCU_STATE;
                   reply COMMAND_QUERY_MCU_STATE (replicate 16 x00)])).1
    = Ok (replicate 16 x00).
Proof.
  apply (proj2 (proj2 (proj2
           (fixed_16_byte_responses
              (mkDevice [] [ack_reply COMMAND_QUERY_MCU_STATE;
                            reply COMMAND_QUERY_MCU_STATE (replicate 16 x00)])
              (ack_reply COMMAND_QUERY_MCU_STATE)
              (reply COMMAND_QUERY_MCU_STATE (replicate 16 x00))
              (replicate 16 x00) [] eq_refl))));
    [by (exists false; vm_compute)|by vm_compute].
Defined.

Lemma ack_only_commands_witness :
  (enable_chip true
     (mkDevice [] [ack_reply COMMAND_ENABLE_CHIP; [x01]])).1 = Ok () /\
  incoming (enable_chip true
              (mkDevice [] [ack_reply COMMAND_ENABLE_CHIP; [x01]])).2
    = [[x01]].
Proof.
  apply (proj1 (proj2 (ack_only_commands
                         (mkDevice [] [ack_reply COMMAND_ENABLE_CHIP; [x01]])
                         (ack_reply COMMAND_ENABLE_CHIP) [[x01]] eq_refl))
           true).
  by (exists false; vm_compute).
Defined.

Lemma nav_0_expects_sentinel_witness :
  (nav_0 (mkDevice [] [ack_reply COMMAND_NAV_0;
                       request_frame COMMAND_NAV_0 [x01; x02] true ++ []])).1 =
    if negb true || (trailer_of COMMAND_NAV_0 [x01; x02] true =? 0x88)
    then Ok [x01; x02]
    else Raise (ValueError "Invalid payload").
Proof.
  apply (nav_0_expects_sentinel
           (mkDevice [] [ack_reply COMMAND_NAV_0;
                         request_frame COMMAND_NAV_0 [x01; x02] true ++ []])
           (ack_reply COMMAND_NAV_0) [x01; x02] [] true []);
    [reflexivity|reflexivity|by (exists false; vm_compute)].
Defined.

Lemma mcu_get_image_two_reads_witness :
  (mcu_get_image
     (mkDevice [] [ack_reply COMMAND_MCU_GET_IMAGE;
                   [xb0; x03; x00; xb3; x01]; [x02; x03; x00]])).1
    = Ok [x01; x02; x03] /\
  incoming (mcu_get_image
              (mkDevice [] [ack_reply COMMAND_MCU_GET_IMAGE;
                            [xb0; x03; x00; xb3; x01]; [x02; x03; x00]])).2
    = [].
Proof.
  apply (proj1 (mcu_get_image_two_reads
                  (mkDevice [] [ack_reply COMMAND_MCU_GET_IMAGE;
                                [xb0; x03; x00; xb3; x01]; [x02; x03; x00]])
                  (ack_reply COMMAND_MCU_GET_IMAGE)
                  ltac:(by (exists false; vm_compute)))
           [xb0; x03; x00; xb3; x01] [x02; x03; x00] [x01; x02; x03]
           [xb0; x03; x00; xb3; x01; x02; x03] [x00] []);
    reflexivity.
Defined.

Lemma request_tls_connection_flags_witness :
  (request_tls_connection
     (mkDevice [] [ack_reply COMMAND_REQUEST_TLS_CONNECTION;
                   [xa0; x02; x00; xa2; x01; x02] ++ []])).1 =
    if 0xa0 =? FLAGS_TRANSPORT_LAYER_SECURITY
    then Ok [x01; x02]
    else Raise (ValueError "Invalid message pack").
Proof.
  apply (request_tls_connection_flags
           (mkDevice [] [ack_reply COMMAND_REQUEST_TLS_CONNECTION;
                         [xa0; x02; x00; xa2; x01; x02] ++ []])
           (ack_reply COMMAND_REQUEST_TLS_CONNECTION)
           [x01; x02] [xa0; x02; x00; xa2; x01; x02] [] 0xa0 []);
    [reflexivity|reflexivity|by (exists false; vm_compute)].
Defined.

Lemma write_sensor_register_single_witness :
  (write_sensor_register (AddressInt 0x0220) (ValueBytes [x01; x02])
     (mkDevice [] [ack_reply COMMAND_WRITE_SENSOR_REGISTER])).1 = Ok ().
Proof.
  apply (proj1 (write_sensor_register_single 0x0220 [x01; x02]
                  (mkDevice [] [ack_reply COMMAND_WRITE_SENSOR_REGISTER]))
           (ack_reply COMMAND_WRITE_SENSOR_REGISTER) []);
    [lia|reflexivity|reflexivity|by (exists false; vm_compute)].
Defined.

Lemma read_sensor_register_single_witness :
  (read_sensor_register (AddressInt 0x0000) 4
     (mkDevice [] [ack_reply COMMAND_READ_SENSOR_REGISTER;
                   reply COMMAND_READ_SENSOR_REGISTER
                     [xa2; x04; x25; x00]])).1 =
    if len [xa2; x04; x25; x00] =? 4
    then Ok (ValueBytes [xa2; x04; x25; x00])
    else Raise (SystemError "Invalid response length").
Proof.
  apply (proj1 (read_sensor_register_single 4
                  (mkDevice [] [ack_reply COMMAND_READ_SENSOR_REGISTER;
                                reply COMMAND_READ_SENSOR_REGISTER
                                  [xa2; x04; x25; x00]]))
           0x0000 (ack_reply COMMAND_READ_SENSOR_REGISTER)
           (reply COMMAND_READ_SENSOR_REGISTER [xa2; x04; x25; x00])
           [xa2; x04; x25; x00] []);
    [lia|lia|reflexivity|by (exists false; vm_compute)|by vm_compute].
Defined.
